(** * The cart / order transaction engine of eCommerceDs (Node + Express +
      Sequelize + PostgreSQL), embedded in Rocq.

    The development follows the TypeScript sources:
    - [controllers/cartDetailsController.ts]  ([addToCart], [removeFromCart]),
    - [controllers/ordersController.ts]       ([createOrderFromCart]),
    - [services/cartService.ts]               ([getActiveCartByEmail],
      [createCart], [updateCartTotalPrice], [disableCart], [enableCart]),
    - [services/cartDetailService.ts]         ([getCartDetailsByCartId],
      [removeAllDetailsFromCart]),
    - [services/recordService.ts]             ([getById], [update],
      [updateStock]),
    - [services/orderService.ts]              ([createOrder],
      [createOrderDetail], [createOrderWithDetails], [getOrdersByEmail]).
    Also embedded: [getCartStatus] of cartService, and [getCartDetail],
    [addCartDetail], [updateCartDetail], [removeFromCartDetail] of
    cartDetailService.
    In the source tree the order controller is found after the cart
    controller in [src/controllers/cartDetailsController.ts], and the
    cart-detail and order services in [src/services/musicGenreService.ts].

    Modelling conventions.
    - Tables are lists of rows in storage order; a query that takes "the first
      row" takes the head of the filtered list.
    - JavaScript numbers that hold identifiers, amounts and stock are integers
      ([Z]).  Money (DECIMAL(10,2)) is counted in cents.
    - Every asynchronous function is a computation in the monad [M]: it reads
      and writes the database, may throw, and threads the state explicitly.
    - A database round trip may fail; which ones do is given by the [faults]
      oracle of the state, so that lock time-outs, constraint violations and
      lost connections are all covered.
    - One request at a time: row locks ([FOR UPDATE]) never block. *)

From Stdlib Require Import ZArith List String Ascii Bool Lia.
Import ListNotations.
Local Open Scope string_scope.
Local Open Scope list_scope.
Local Open Scope Z_scope.

(* ================================================================== *)
(** * Strings: what JavaScript and SQL do to e-mail addresses          *)
(* ================================================================== *)

Module Str.

(** [String.prototype.toLowerCase] and SQL [LOWER], on the ASCII range. *)
Definition lower_ascii (c : ascii) : ascii :=
  let n := nat_of_ascii c in
  if (Nat.leb 65 n && Nat.leb n 90)%bool then ascii_of_nat (n + 32) else c.

Fixpoint map_ascii (f : ascii -> ascii) (s : string) : string :=
  match s with
  | EmptyString => EmptyString
  | String c s' => String (f c) (map_ascii f s')
  end.

(** White space removed by [String.prototype.trim] (ASCII range). *)
Definition js_space (c : ascii) : bool :=
  let n := nat_of_ascii c in
  (Nat.leb 9 n && Nat.leb n 13)%bool || Nat.eqb n 32.

(** SQL [TRIM(x)] removes blanks only. *)
Definition sql_space (c : ascii) : bool := Nat.eqb (nat_of_ascii c) 32.

Fixpoint trim_start (ws : ascii -> bool) (s : string) : string :=
  match s with
  | EmptyString => EmptyString
  | String c s' => if ws c then trim_start ws s' else s
  end.

Fixpoint trim_end (ws : ascii -> bool) (s : string) : string :=
  match s with
  | EmptyString => EmptyString
  | String c s' =>
      match trim_end ws s' with
      | EmptyString => if ws c then EmptyString else String c EmptyString
      | t => String c t
      end
  end.

Definition trim_with (ws : ascii -> bool) (s : string) : string :=
  trim_end ws (trim_start ws s).

End Str.

Definition toLowerCase (s : string) : string := Str.map_ascii Str.lower_ascii s.
Definition trim (s : string) : string := Str.trim_with Str.js_space s.
Definition LOWER (s : string) : string := Str.map_ascii Str.lower_ascii s.
Definition TRIM (s : string) : string := Str.trim_with Str.sql_space s.

(** [email.trim().toLowerCase()], the normal form used by cartService. *)
Definition normalizeEmail (email : string) : string := toLowerCase (trim email).

(* ================================================================== *)
(** * Rows and tables (models/*.ts)                                    *)
(* ================================================================== *)

(** models/Record.ts -- only the columns the cart engine reads or writes. *)
Module RecordItem.
Record t := mk { IdRecord : Z; Price : Z; Stock : Z }.
Definition with_Stock (v : Z) (r : t) : t := mk (IdRecord r) (Price r) v.
Definition with_Price (v : Z) (r : t) : t := mk (IdRecord r) v (Stock r).
End RecordItem.

(** models/Cart.ts *)
Module Cart.
Record t := mk { IdCart : Z; UserEmail : string; TotalPrice : Z; Enabled : bool }.
Definition with_TotalPrice (v : Z) (c : t) : t :=
  mk (IdCart c) (UserEmail c) v (Enabled c).
Definition with_Enabled (v : bool) (c : t) : t :=
  mk (IdCart c) (UserEmail c) (TotalPrice c) v.
End Cart.

(** models/CartDetail.ts *)
Module CartDetail.
Record t := mk { IdCartDetail : Z; CartId : Z; RecordId : Z; Amount : Z; Price : Z }.
Definition with_Amount (v : Z) (d : t) : t :=
  mk (IdCartDetail d) (CartId d) (RecordId d) v (Price d).
End CartDetail.

(** models/Order.ts *)
Module Order.
Record t := mk { IdOrder : Z; OrderDate : Z; PaymentMethod : string;
                 Total : Z; UserEmail : string; CartId : Z }.
End Order.

(** models/OrderDetail.ts *)
Module OrderDetail.
Record t := mk { IdOrderDetail : Z; OrderId : Z; RecordId : Z; Amount : Z; Price : Z }.
End OrderDetail.

Record DB := mkDB {
  Records      : list RecordItem.t;
  Carts        : list Cart.t;
  CartDetails  : list CartDetail.t;
  Orders       : list Order.t;
  OrderDetails : list OrderDetail.t
}.

Definition with_Records (v : list RecordItem.t) (db : DB) : DB :=
  mkDB v (Carts db) (CartDetails db) (Orders db) (OrderDetails db).
Definition with_Carts (v : list Cart.t) (db : DB) : DB :=
  mkDB (Records db) v (CartDetails db) (Orders db) (OrderDetails db).
Definition with_CartDetails (v : list CartDetail.t) (db : DB) : DB :=
  mkDB (Records db) (Carts db) v (Orders db) (OrderDetails db).
Definition with_Orders (v : list Order.t) (db : DB) : DB :=
  mkDB (Records db) (Carts db) (CartDetails db) v (OrderDetails db).
Definition with_OrderDetails (v : list OrderDetail.t) (db : DB) : DB :=
  mkDB (Records db) (Carts db) (CartDetails db) (Orders db) v.

(* ================================================================== *)
(** * The database session: transactions, sequences, failures          *)
(* ================================================================== *)

Inductive DbErrorKind :=
| UniqueViolation      (* SQLSTATE 23505, SequelizeUniqueConstraintError *)
| OtherDbError.        (* anything else the server or the driver reports *)

Inductive Exn :=
| SequelizeDatabaseError (k : DbErrorKind)
| SequelizeValidationError
| TypeError
| Error (message : string).

(** A transaction handle is the index of the transaction among those the
    request has begun.  An open transaction holds its uncommitted writes as a
    function of the committed tables; after a failed statement PostgreSQL
    refuses every further statement until the transaction ends. *)
Definition Tx := nat.

Inductive TxState :=
| TxOpen (writes : DB -> DB)
| TxAborted
| TxFinished.

(** The serial columns.  Sequences are not transactional: a value drawn in a
    transaction that rolls back is not given again. *)
Record Sequences := mkSeq {
  seq_IdCart : Z; seq_IdCartDetail : Z; seq_IdOrder : Z; seq_IdOrderDetail : Z
}.

Record World := mkWorld {
  tables : DB;                          (* committed rows *)
  seqs   : Sequences;
  faults : list (option DbErrorKind);  (* outcome of the coming round trips *)
  txs    : list TxState                 (* transactions begun by this request *)
}.

Definition with_tables (v : DB) (w : World) : World :=
  mkWorld v (seqs w) (faults w) (txs w).
Definition with_seqs (v : Sequences) (w : World) : World :=
  mkWorld (tables w) v (faults w) (txs w).
Definition with_faults (v : list (option DbErrorKind)) (w : World) : World :=
  mkWorld (tables w) (seqs w) v (txs w).
Definition with_txs (v : list TxState) (w : World) : World :=
  mkWorld (tables w) (seqs w) (faults w) v.

(** What persists between requests. *)
Record Store := mkStore {
  st_tables : DB; st_seqs : Sequences; st_faults : list (option DbErrorKind)
}.

Definition M (A : Type) : Type := World -> (Exn + A) * World.

Definition ret {A} (a : A) : M A := fun w => (inr a, w).
Definition throw {A} (x : Exn) : M A := fun w => (inl x, w).
Definition bind {A B} (m : M A) (k : A -> M B) : M B :=
  fun w => match m w with
           | (inr a, w') => k a w'
           | (inl x, w') => (inl x, w')
           end.
(** [try { m } catch (error) { h error }] *)
Definition try_catch {A} (m : M A) (h : Exn -> M A) : M A :=
  fun w => match m w with
           | (inl x, w') => h x w'
           | r => r
           end.

Notation "x <- m ;; k" := (bind m (fun x => k))
  (at level 61, m at next level, right associativity).
Notation "m ;; k" := (bind m (fun _ => k))
  (at level 61, right associativity).

(** A request starts with no transaction of its own; the ones it leaves open
    are never committed. *)
Definition run {A} (m : M A) (s : Store) : (Exn + A) * Store :=
  let '(r, w) := m (mkWorld (st_tables s) (st_seqs s) (st_faults s) []) in
  (r, mkStore (tables w) (seqs w) (faults w)).

Fixpoint set_nth {A} (n : nat) (v : A) (l : list A) : list A :=
  match l, n with
  | [], _ => []
  | _ :: l', O => v :: l'
  | a :: l', S n' => a :: set_nth n' v l'
  end.

(** [await sequelize.transaction()] *)
Definition sequelize_transaction : M Tx :=
  fun w => (inr (List.length (txs w)), with_txs (txs w ++ [TxOpen (fun db => db)]) w).

(** [await sequelize.query(sql, { ..., transaction })]: the statement [q] sees
    the committed rows and the transaction's own writes. *)
Definition query_in {A} (t : Tx) (q : DB -> A * DB) : M A :=
  fun w =>
    match nth_error (txs w) t with
    | Some (TxOpen g) =>
        match hd None (faults w) with
        | Some k =>
            (inl (SequelizeDatabaseError k),
             with_txs (set_nth t TxAborted (txs w)) (with_faults (tl (faults w)) w))
        | None =>
            (inr (fst (q (g (tables w)))),
             with_txs (set_nth t (TxOpen (fun db => snd (q (g db)))) (txs w))
                      (with_faults (tl (faults w)) w))
        end
    | Some TxAborted => (inl (SequelizeDatabaseError OtherDbError), w)
    | Some TxFinished | None =>
        (inl (Error "the transaction has been finished"), w)
    end.

(** [await sequelize.query(sql, { ... })] without a transaction: the statement
    commits on its own. *)
Definition query {A} (q : DB -> A * DB) : M A :=
  fun w =>
    match hd None (faults w) with
    | Some k => (inl (SequelizeDatabaseError k), with_faults (tl (faults w)) w)
    | None =>
        (inr (fst (q (tables w))),
         with_tables (snd (q (tables w))) (with_faults (tl (faults w)) w))
    end.

(** Model and raw calls that take an optional [transaction]. *)
Definition query_opt {A} (t : option Tx) (q : DB -> A * DB) : M A :=
  match t with
  | Some t => query_in t q
  | None => query q
  end.

(** [await transaction.commit()] *)
Definition commit (t : Tx) : M unit :=
  fun w =>
    match nth_error (txs w) t with
    | Some (TxOpen g) =>
        match hd None (faults w) with
        | Some k =>
            (inl (SequelizeDatabaseError k),
             with_txs (set_nth t TxFinished (txs w)) (with_faults (tl (faults w)) w))
        | None =>
            (inr tt,
             with_tables (g (tables w))
               (with_txs (set_nth t TxFinished (txs w)) (with_faults (tl (faults w)) w)))
        end
    | Some TxAborted =>
        (* the server answers COMMIT of a failed transaction with ROLLBACK *)
        (inr tt, with_txs (set_nth t TxFinished (txs w)) w)
    | Some TxFinished | None =>
        (inl (Error "Transaction cannot be committed because it has been finished"), w)
    end.

(** [await transaction.rollback()] *)
Definition rollback (t : Tx) : M unit :=
  fun w =>
    match nth_error (txs w) t with
    | Some (TxOpen _) | Some TxAborted =>
        (inr tt, with_txs (set_nth t TxFinished (txs w)) w)
    | Some TxFinished | None =>
        (inl (Error "Transaction cannot be rolled back because it has been finished"), w)
    end.

Definition nextval_IdCart : M Z :=
  fun w => (inr (seq_IdCart (seqs w)),
            with_seqs (mkSeq (seq_IdCart (seqs w) + 1) (seq_IdCartDetail (seqs w))
                             (seq_IdOrder (seqs w)) (seq_IdOrderDetail (seqs w))) w).
Definition nextval_IdCartDetail : M Z :=
  fun w => (inr (seq_IdCartDetail (seqs w)),
            with_seqs (mkSeq (seq_IdCart (seqs w)) (seq_IdCartDetail (seqs w) + 1)
                             (seq_IdOrder (seqs w)) (seq_IdOrderDetail (seqs w))) w).
Definition nextval_IdOrder : M Z :=
  fun w => (inr (seq_IdOrder (seqs w)),
            with_seqs (mkSeq (seq_IdCart (seqs w)) (seq_IdCartDetail (seqs w))
                             (seq_IdOrder (seqs w) + 1) (seq_IdOrderDetail (seqs w))) w).
Definition nextval_IdOrderDetail : M Z :=
  fun w => (inr (seq_IdOrderDetail (seqs w)),
            with_seqs (mkSeq (seq_IdCart (seqs w)) (seq_IdCartDetail (seqs w))
                             (seq_IdOrder (seqs w)) (seq_IdOrderDetail (seqs w) + 1)) w).

(** [await Promise.all(ps)]: every promise has been started and settles; the
    result is the first rejection, if any. *)
Fixpoint Promise_all {A} (ps : list (M A)) : M (list A) :=
  match ps with
  | [] => ret []
  | p :: rest =>
      fun w =>
        match p w with
        | (inl x, w1) => (inl x, snd (Promise_all rest w1))
        | (inr a, w1) =>
            match Promise_all rest w1 with
            | (inl x, w2) => (inl x, w2)
            | (inr l, w2) => (inr (a :: l), w2)
            end
        end
  end.

(* ================================================================== *)
(** * The SQL statements, as functions on the tables                   *)
(* ================================================================== *)

Module Sql.

(** [SELECT * FROM "Records" WHERE "IdRecord" = :id] (with or without
    [FOR UPDATE]; also the [SELECT "Stock" ...] of the controllers). *)
Definition select_record (id : Z) (db : DB) : list RecordItem.t * DB :=
  (filter (fun r => RecordItem.IdRecord r =? id) (Records db), db).

(** [UPDATE "Records" SET "Stock" = "Stock" + :delta WHERE "IdRecord" = :id] *)
Definition add_to_stock (id delta : Z) (db : DB) : unit * DB :=
  (tt, with_Records
         (map (fun r => if RecordItem.IdRecord r =? id
                        then RecordItem.with_Stock (RecordItem.Stock r + delta) r
                        else r) (Records db)) db).

(** [UPDATE "Records" SET "Stock" = :newStock WHERE "IdRecord" = :id] *)
Definition set_stock (id newStock : Z) (db : DB) : unit * DB :=
  (tt, with_Records
         (map (fun r => if RecordItem.IdRecord r =? id
                        then RecordItem.with_Stock newStock r else r) (Records db)) db).

(** [UPDATE "Records" SET "Price" = :price WHERE "IdRecord" = :id],
    answering the number of rows touched. *)
Definition set_price (id price : Z) (db : DB) : Z * DB :=
  (Z.of_nat (List.length (filter (fun r => RecordItem.IdRecord r =? id) (Records db))),
   with_Records
     (map (fun r => if RecordItem.IdRecord r =? id
                    then RecordItem.with_Price price r else r) (Records db)) db).

(** [SELECT * FROM "Carts" WHERE LOWER(TRIM("UserEmail")) = :email
     AND "Enabled" = true FOR UPDATE] *)
Definition select_active_cart (email : string) (db : DB) : list Cart.t * DB :=
  (filter (fun c => String.eqb (LOWER (TRIM (Cart.UserEmail c))) email
                    && Cart.Enabled c) (Carts db), db).

(** Replace the first row that satisfies [p]. *)
Fixpoint update_first {A} (p : A -> bool) (f : A -> A) (l : list A) : list A :=
  match l with
  | [] => []
  | a :: l' => if p a then f a :: l' else a :: update_first p f l'
  end.

(** [INSERT INTO "Carts" ("UserEmail","TotalPrice","Enabled")
     VALUES (:email, 0, true)
     ON CONFLICT ("UserEmail") DO UPDATE SET "Enabled" = true RETURNING *].
    When the statement is accepted, the row in conflict (same "UserEmail")
    is re-enabled and returned; without one, the new row is. *)
Definition insert_cart_on_conflict (newId : Z) (email : string) (db : DB)
  : list Cart.t * DB :=
  match find (fun c => String.eqb (Cart.UserEmail c) email) (Carts db) with
  | Some c =>
      ([Cart.with_Enabled true c],
       with_Carts (update_first (fun c => String.eqb (Cart.UserEmail c) email)
                                (Cart.with_Enabled true) (Carts db)) db)
  | None =>
      ([Cart.mk newId email 0 true],
       with_Carts (Carts db ++ [Cart.mk newId email 0 true]) db)
  end.

(** [Cart.findOne({ where: { UserEmail, Enabled: true } })] *)
Definition find_active_cart (email : string) (db : DB) : option Cart.t * DB :=
  (find (fun c => String.eqb (Cart.UserEmail c) email && Cart.Enabled c) (Carts db), db).

(** [Cart.create({ UserEmail, TotalPrice, Enabled })] *)
Definition create_cart (newId : Z) (email : string) (total : Z) (enabled : bool)
           (db : DB) : Cart.t * DB :=
  (Cart.mk newId email total enabled,
   with_Carts (Carts db ++ [Cart.mk newId email total enabled]) db).

(** [Cart.findByPk(id)] *)
Definition find_cart_by_pk (id : Z) (db : DB) : option Cart.t * DB :=
  (find (fun c => Cart.IdCart c =? id) (Carts db), db).

(** [UPDATE "Carts" SET "TotalPrice" = "TotalPrice" + :by WHERE "IdCart" = :id]
    (raw in the controllers, [cart.increment('TotalPrice', { by })] in
    cartService). *)
Definition add_to_total (id by_ : Z) (db : DB) : unit * DB :=
  (tt, with_Carts
         (map (fun c => if Cart.IdCart c =? id
                        then Cart.with_TotalPrice (Cart.TotalPrice c + by_) c
                        else c) (Carts db)) db).

(** [cart.save()] after [cart.Enabled = v]:
    [UPDATE "Carts" SET "Enabled" = :v WHERE "IdCart" = :id] *)
Definition save_enabled (id : Z) (v : bool) (db : DB) : unit * DB :=
  (tt, with_Carts
         (map (fun c => if Cart.IdCart c =? id then Cart.with_Enabled v c else c)
              (Carts db)) db).

(** [Cart.update({ Enabled: true },
                 { where: { UserEmail: email, Enabled: false }, returning: true })]:
    every row of the [where] clause is updated and returned. *)
Definition enable_disabled_carts (email : string) (db : DB) : list Cart.t * DB :=
  let hit c := String.eqb (Cart.UserEmail c) email && negb (Cart.Enabled c) in
  (map (Cart.with_Enabled true) (filter hit (Carts db)),
   with_Carts (map (fun c => if hit c then Cart.with_Enabled true c else c) (Carts db)) db).

(** [SELECT * FROM "CartDetails" WHERE "CartId" = :cartId AND "RecordId" = :recordId
     FOR UPDATE] *)
Definition select_cart_detail (cartId recordId : Z) (db : DB)
  : list CartDetail.t * DB :=
  (filter (fun d => (CartDetail.CartId d =? cartId) && (CartDetail.RecordId d =? recordId))
          (CartDetails db), db).

(** [SELECT * FROM "CartDetails" WHERE "CartId" = :cartId] *)
Definition select_cart_details (cartId : Z) (db : DB) : list CartDetail.t * DB :=
  (filter (fun d => CartDetail.CartId d =? cartId) (CartDetails db), db).

(** [UPDATE "CartDetails" SET "Amount" = :newAmount WHERE "IdCartDetail" = :id] *)
Definition set_amount (id newAmount : Z) (db : DB) : unit * DB :=
  (tt, with_CartDetails
         (map (fun d => if CartDetail.IdCartDetail d =? id
                        then CartDetail.with_Amount newAmount d else d)
              (CartDetails db)) db).

(** [INSERT INTO "CartDetails" ("CartId","RecordId","Amount","Price") VALUES (...)] *)
Definition insert_cart_detail (newId cartId recordId amount price : Z) (db : DB)
  : unit * DB :=
  (tt, with_CartDetails
         (CartDetails db ++ [CartDetail.mk newId cartId recordId amount price]) db).

(** [DELETE FROM "CartDetails" WHERE "IdCartDetail" = :id] *)
Definition delete_cart_detail (id : Z) (db : DB) : unit * DB :=
  (tt, with_CartDetails
         (filter (fun d => negb (CartDetail.IdCartDetail d =? id)) (CartDetails db)) db).

(** [DELETE FROM "CartDetails" WHERE "CartId" = :cartId] *)
Definition delete_cart_details (cartId : Z) (db : DB) : unit * DB :=
  (tt, with_CartDetails
         (filter (fun d => negb (CartDetail.CartId d =? cartId)) (CartDetails db)) db).

(** [Order.create({...})] *)
Definition insert_order (o : Order.t) (db : DB) : Order.t * DB :=
  (o, with_Orders (Orders db ++ [o]) db).

(** [OrderDetail.create({...})] *)
Definition insert_order_detail (d : OrderDetail.t) (db : DB) : OrderDetail.t * DB :=
  (d, with_OrderDetails (OrderDetails db ++ [d]) db).

End Sql.

(* ================================================================== *)
(** * services/cartDetailService.ts                                    *)
(* ================================================================== *)

(** The function takes the cart id only: a second argument given by a caller
    is dropped, and the SELECT runs outside every transaction.  Whatever the
    query throws is logged and an empty array is returned. *)
Definition getCartDetailsByCartId (cartId : Z) : M (list CartDetail.t) :=
  try_catch
    (results <- query (Sql.select_cart_details cartId) ;;
     ret results)
    (fun _error => ret []).

Definition removeAllDetailsFromCart (cartId : Z) : M unit :=
  query (Sql.delete_cart_details cartId).

(* ================================================================== *)
(** * services/recordService.ts                                        *)
(* ================================================================== *)

(** [getById]: the joined SELECT, first row or [null]; errors are rethrown. *)
Definition getById (id : Z) : M (option RecordItem.t) :=
  try_catch
    (results <- query (Sql.select_record id) ;;
     ret (hd_error results))
    (fun error => throw error).

(** [update(id, { Price: price })]: the catalogue price change.  Only the
    "Price" branch of the function is taken by such a call; any error is
    swallowed and reported as [false]. *)
Definition update_Price (id price : Z) : M bool :=
  try_catch
    (rowCount <- query (Sql.set_price id price) ;;
     ret (0 <? rowCount))
    (fun _error => ret false).

(** What [sequelize.query] resolves to is fixed by Sequelize, not by this
    repository.  With a query [type] (all the SELECTs here pass one) it is
    the array of rows; a raw query without [type] resolves to the pair
    [[results, metadata]].  The controllers and [getById] read the array of
    rows; [updateStock] destructures a pair.  Both conventions are kept so
    that every statement about [updateStock] says which one it is about. *)
Inductive QueryResult := RowArray | ResultsAndMetadata.

(** The JavaScript values [updateStock] handles. *)
Inductive JsValue :=
| Undefined
| Row (r : RecordItem.t)
| Rows (rows : list RecordItem.t)
| ResultsMetadataPair (rows : list RecordItem.t).

Definition first_row (rows : list RecordItem.t) : JsValue :=
  match rows with
  | [] => Undefined
  | r :: _ => Row r
  end.

Definition select_result (shape : QueryResult) (rows : list RecordItem.t) : JsValue :=
  match shape with
  | RowArray => Rows rows
  | ResultsAndMetadata => ResultsMetadataPair rows
  end.

(** [const [x] = v]: [v] has to be iterable. *)
Definition destructure_first (v : JsValue) : M JsValue :=
  match v with
  | Rows rows => ret (first_row rows)
  | ResultsMetadataPair rows => ret (Rows rows)
  | Undefined | Row _ => throw TypeError
  end.

(** [v[0]]: reading a property of [undefined] throws; a row object has no
    property "0". *)
Definition index_0 (v : JsValue) : M JsValue :=
  match v with
  | Undefined => throw TypeError
  | Rows rows => ret (first_row rows)
  | ResultsMetadataPair rows => ret (Rows rows)
  | Row _ => ret Undefined
  end.

(** [updateStock(id, amount)] has two parameters: a third argument given by a
    caller is dropped.  It begins, commits or rolls back its own
    transaction.  The result's [record] field is not used by the cart
    engine; [newStock] is returned. *)
Definition updateStock (shape : QueryResult) (id amount : Z) : M Z :=
  transaction <- sequelize_transaction ;;
  try_catch
    (rows <- query_in transaction (Sql.select_record id) ;;
     results <- destructure_first (select_result shape rows) ;;
     record <- index_0 results ;;
     match record with
     | Row record =>
         let currentStock := RecordItem.Stock record in
         let newStock := currentStock + amount in
         if newStock <? 0 then
           rollback transaction ;;
           throw (Error "Insufficient stock available")
         else
           query_in transaction (Sql.set_stock id newStock) ;;
           commit transaction ;;
           _updatedRecord <- getById id ;;
           ret newStock
     | Undefined =>
         rollback transaction ;;
         throw (Error "Record with ID ${id} not found")
     | Rows _ | ResultsMetadataPair _ =>
         (* produced by neither convention: [record.Stock] would be undefined *)
         throw TypeError
     end)
    (fun error =>
       rollback transaction ;;
       throw error).

(* ================================================================== *)
(** * services/cartService.ts                                          *)
(* ================================================================== *)

Definition getActiveCartByEmail (email : string) (transaction : option Tx)
  : M (option Cart.t) :=
  if String.eqb email "" then throw (Error "Email is required")
  else
    let normalizedEmail := toLowerCase (trim email) in
    try_catch
      (query_opt transaction (Sql.find_active_cart normalizedEmail))
      (fun error => throw error).

(** [Cart.findOrCreate({ where: { UserEmail, Enabled: true }, defaults, transaction })]:
    look the row up in the transaction and insert the defaults when there is
    none. *)
Definition Cart_findOrCreate (email : string) (enabled : bool) (transaction : option Tx)
  : M Cart.t :=
  found <- query_opt transaction (Sql.find_active_cart email) ;;
  match found with
  | Some cart => ret cart
  | None =>
      newId <- nextval_IdCart ;;
      query_opt transaction (Sql.create_cart newId email 0 enabled)
  end.

Definition createCart (userEmail : string) (enabled : bool) (transaction : option Tx)
  : M Cart.t :=
  let normalizedEmail := toLowerCase (trim userEmail) in
  try_catch
    (Cart_findOrCreate normalizedEmail enabled transaction)
    (fun error => throw error).

Definition updateCartTotalPrice (cartId priceToAdd : Z) : M unit :=
  try_catch
    (cart <- query (Sql.find_cart_by_pk cartId) ;;
     match cart with
     | None => throw (Error "Cart not found")
     | Some cart => query (Sql.add_to_total (Cart.IdCart cart) priceToAdd)
     end)
    (fun error => throw error).

(** [for (const detail of cartDetails) await recordService.updateStock(...)] *)
Fixpoint for_each {A} (l : list A) (body : A -> M unit) : M unit :=
  match l with
  | [] => ret tt
  | a :: l' => body a ;; for_each l' body
  end.

(** [disableCart]: the transaction [t] is handed to [getCartDetailsByCartId]
    and to [updateStock], neither of which has a parameter for it. *)
Definition disableCart (shape : QueryResult) (email : string) : M Z :=
  cart <- getActiveCartByEmail email None ;;
  match cart with
  | None => throw (Error "No active cart found for this user to disable")
  | Some cart =>
      t <- sequelize_transaction ;;
      try_catch
        (cartDetails <- getCartDetailsByCartId (Cart.IdCart cart) ;;
         for_each cartDetails
           (fun detail =>
              updateStock shape (CartDetail.RecordId detail) (CartDetail.Amount detail) ;;
              ret tt) ;;
         query_in t (Sql.save_enabled (Cart.IdCart cart) false) ;;
         commit t ;;
         ret (Cart.IdCart cart))
        (fun error =>
           rollback t ;;
           throw error)
  end.

Definition enableCart (email : string) : M Cart.t :=
  affectedRows <- query (Sql.enable_disabled_carts email) ;;
  match affectedRows with
  | [] => throw (Error "No disabled cart found for this user to enable")
  | cart :: _ => ret cart
  end.

(* ================================================================== *)
(** * services/orderService.ts                                         *)
(* ================================================================== *)

Definition createOrder (orderDate : Z) (userEmail : string) (total cartId : Z)
  : M Order.t :=
  newId <- nextval_IdOrder ;;
  query (Sql.insert_order (Order.mk newId orderDate "Credit Card" total userEmail cartId)).

(** [OrderDetail.create] validates the instance first ([Amount]: min 1,
    [Price]: min 0.01, that is one cent) and only then inserts it. *)
Definition createOrderDetail (orderId recordId amount price : Z) : M OrderDetail.t :=
  if (amount <? 1) || (price <? 1) then throw SequelizeValidationError
  else
    newId <- nextval_IdOrderDetail ;;
    query (Sql.insert_order_detail (OrderDetail.mk newId orderId recordId amount price)).

(* ================================================================== *)
(** * Service functions beside the cart requests                     *)
(* ================================================================== *)

(** The other functions of services/cartDetailService.ts.  None takes a
    transaction: each statement commits on its own. *)
Module CartDetailService.

(** The JavaScript values [getCartDetail] handles. *)
Inductive JsValue :=
| Undefined
| Row (d : CartDetail.t)
| Rows (rows : list CartDetail.t)
| ResultsMetadataPair (rows : list CartDetail.t).

Definition first_row (rows : list CartDetail.t) : JsValue :=
  match rows with
  | [] => Undefined
  | d :: _ => Row d
  end.

Definition select_result (shape : QueryResult) (rows : list CartDetail.t) : JsValue :=
  match shape with
  | RowArray => Rows rows
  | ResultsAndMetadata => ResultsMetadataPair rows
  end.

(** [const [x] = v] *)
Definition destructure_first (v : JsValue) : M JsValue :=
  match v with
  | Rows rows => ret (first_row rows)
  | ResultsMetadataPair rows => ret (Rows rows)
  | Undefined | Row _ => throw TypeError
  end.

(** [v[0]] *)
Definition index_0 (v : JsValue) : M JsValue :=
  match v with
  | Undefined => throw TypeError
  | Rows rows => ret (first_row rows)
  | ResultsMetadataPair rows => ret (Rows rows)
  | Row _ => ret Undefined
  end.

(** [return (results as CartDetail[])[0] || null]: what is returned is
    declared a cart line; of the values above only a row is one. *)
Definition getCartDetail (shape : QueryResult) (cartId recordId : Z)
  : M (option CartDetail.t) :=
  rows <- query (Sql.select_cart_detail cartId recordId) ;;
  results <- destructure_first (select_result shape rows) ;;
  line <- index_0 results ;;
  match line with
  | Row d => ret (Some d)
  | Undefined => ret None
  | Rows _ | ResultsMetadataPair _ => throw TypeError
  end.

(** [INSERT ... RETURNING "IdCartDetail"], the result being the line with
    the id the sequence gave. *)
Definition addCartDetail (cartId recordId amount price : Z) : M CartDetail.t :=
  insertedId <- nextval_IdCartDetail ;;
  query (Sql.insert_cart_detail insertedId cartId recordId amount price) ;;
  ret (CartDetail.mk insertedId cartId recordId amount price).

Definition updateCartDetail (idCartDetail amount : Z) : M unit :=
  query (Sql.set_amount idCartDetail amount).

Definition removeFromCartDetail (idCartDetail : Z) : M unit :=
  query (Sql.delete_cart_detail idCartDetail).

End CartDetailService.



(** [IOrderCreationAttributes], as [createOrderWithDetails] receives it:
    [OrderDate] and [PaymentMethod] may be absent. *)
Module OrderData.
Record t := mk { UserEmail : string; OrderDate : option Z;
                 PaymentMethod : option string; Total : Z; CartId : Z }.
End OrderData.

(** An element of [orderDetails]: an order line without its ids. *)
Module OrderDetailData.
Record t := mk { RecordId : Z; Amount : Z; Price : Z }.
End OrderDetailData.

(** [order.reload({ include: OrderDetails, transaction })]: the order by its
    primary key, with its lines. *)
Definition select_order_with_details (id : Z) (db : DB)
  : option (Order.t * list OrderDetail.t) * DB :=
  (option_map (fun o => (o, filter (fun d => OrderDetail.OrderId d =? id) (OrderDetails db)))
              (find (fun o => Order.IdOrder o =? id) (Orders db)),
   db).

(** The functions of orderService with their [transaction] parameter. *)
Module OrderService.

(** [orderData.OrderDate || new Date()], [orderData.PaymentMethod || 'Credit Card'] *)
Definition createOrder (now : Z) (orderData : OrderData.t) (transaction : option Tx)
  : M Order.t :=
  let orderDate := match OrderData.OrderDate orderData with
                   | Some d => d
                   | None => now
                   end in
  let paymentMethod := match OrderData.PaymentMethod orderData with
                       | Some p => if String.eqb p "" then "Credit Card" else p
                       | None => "Credit Card"
                       end in
  newId <- nextval_IdOrder ;;
  query_opt transaction
    (Sql.insert_order (Order.mk newId orderDate paymentMethod (OrderData.Total orderData)
                                (OrderData.UserEmail orderData) (OrderData.CartId orderData))).

Definition createOrderDetail (orderId : Z) (detail : OrderDetailData.t)
           (transaction : option Tx) : M OrderDetail.t :=
  if (OrderDetailData.Amount detail <? 1) || (OrderDetailData.Price detail <? 1)
  then throw SequelizeValidationError
  else
    newId <- nextval_IdOrderDetail ;;
    query_opt transaction
      (Sql.insert_order_detail
         (OrderDetail.mk newId orderId (OrderDetailData.RecordId detail)
                         (OrderDetailData.Amount detail) (OrderDetailData.Price detail))).

Definition reload (order : Order.t) (transaction : option Tx)
  : M (Order.t * list OrderDetail.t) :=
  found <- query_opt transaction (select_order_with_details (Order.IdOrder order)) ;;
  match found with
  | Some reloaded => ret reloaded
  | None => throw (Error "Instance could not be reloaded because it does not exist anymore")
  end.

(** The body of the [try] block up to the [return], once [t] and
    [createdTransaction] are set. *)
Definition createOrderWithDetails_try (now : Z) (orderData : OrderData.t)
           (orderDetails : list OrderDetailData.t) (t : Tx) (createdTransaction : bool)
  : M Order.t :=
  order <- createOrder now orderData (Some t) ;;
  Promise_all
    (map (fun detail => createOrderDetail (Order.IdOrder order) detail (Some t))
         orderDetails) ;;
  (if createdTransaction then commit t else ret tt) ;;
  ret order.

(** [return order.reload(...)] hands the promise of the reload back without
    awaiting it: a rejection of the reload is not caught by the [catch]
    block, which the statements before it are. *)
Definition createOrderWithDetails (now : Z) (orderData : OrderData.t)
           (orderDetails : list OrderDetailData.t) (transaction : option Tx)
  : M (Order.t * list OrderDetail.t) :=
  match transaction with
  | Some t =>
      order <- try_catch (createOrderWithDetails_try now orderData orderDetails t false)
                         (fun error => throw error) ;;
      reload order (Some t)
  | None =>
      t <- sequelize_transaction ;;
      order <- try_catch (createOrderWithDetails_try now orderData orderDetails t true)
                         (fun error => rollback t ;; throw error) ;;
      reload order (Some t)
  end.

End OrderService.

(** [order: [['OrderDate', 'DESC']]]: the most recent first.  Among orders of
    the same date SQL fixes no order; here they keep their storage order. *)
Fixpoint insert_by_date (o : Order.t * list OrderDetail.t)
         (l : list (Order.t * list OrderDetail.t)) : list (Order.t * list OrderDetail.t) :=
  match l with
  | [] => [o]
  | x :: l' =>
      if Order.OrderDate (fst x) <=? Order.OrderDate (fst o)
      then o :: x :: l'
      else x :: insert_by_date o l'
  end.

Definition most_recent_first (l : list (Order.t * list OrderDetail.t))
  : list (Order.t * list OrderDetail.t) :=
  fold_right insert_by_date [] l.

(** [Order.findAll({ where, order: OrderDate DESC, include: OrderDetails })] *)
Definition find_orders (where_ : Order.t -> bool) (db : DB)
  : list (Order.t * list OrderDetail.t) * DB :=
  (most_recent_first
     (map (fun o => (o, filter (fun d => OrderDetail.OrderId d =? Order.IdOrder o)
                               (OrderDetails db)))
          (filter where_ (Orders db))),
   db).

(** orderService.getOrdersByEmail: the address is compared as it is given. *)
Definition getOrdersByEmail (email : string) : M (list (Order.t * list OrderDetail.t)) :=
  query (find_orders (fun o => String.eqb (Order.UserEmail o) email)).

(* ================================================================== *)
(** * HTTP requests and responses                                      *)
(* ================================================================== *)

(** [req.user], set by authMiddleware from the token. *)
Module UserPayload.
Record t := mk { email : string; role : string }.
End UserPayload.

(** [AddToCartRequest] / [RemoveFromCartRequest]: [None] is a body field that
    is absent ([undefined]). *)
Record CartRequest := mkCartRequest {
  params_email  : string;
  body_recordId : option Z;
  body_amount   : option Z;
  user          : option UserPayload.t
}.

Inductive Body :=
| MissingRequiredFields                 (* 'Missing required fields' *)
| AmountMustBeGreaterThan0              (* 'Amount must be a number greater than 0' *)
| AuthenticationRequired
| NotAuthorized                         (* 'You are not authorized to modify this cart' *)
| RecordNotFound                        (* "Record not found" *)
| NotEnoughStock (availableStock : Z)   (* "Not enough stock" *)
| CartIssue                             (* "We encountered an issue with your cart..." *)
| ItemAddedToCart (updatedStock cartId : Z)
| InternalServerError
| CartCreationIssue                     (* "We encountered an issue creating your cart..." *)
| ItemNotFoundInCart                    (* "Item not found in cart" *)
| CannotRemoveMore (currentAmount : Z)  (* "Cannot remove more items than are in the cart" *)
| ItemRemovedFromCart (updatedStock remainingInCart : Z)
| EmailIsRequired
| CartEmptyOrNotFound                   (* 'Cart is empty or not found' *)
| CartIsEmpty                           (* 'Cart is empty' *)
| OrderCreated (orderId : Z)
| FailedToCreateOrder.

Record Response := mkResponse { status : Z; body : Body }.

(** [res.status(code).json(body)] *)
Definition respond (code : Z) (b : Body) : M Response := ret (mkResponse code b).

(** The spec's error kinds, read off the response. *)
Definition is_NotFound (r : Response) : bool := status r =? 404.
Definition is_InsufficientStock (r : Response) (available : Z) : Prop :=
  r = mkResponse 400 (NotEnoughStock available).
Definition is_InvalidRemoval (r : Response) (current : Z) : Prop :=
  r = mkResponse 400 (CannotRemoveMore current).
Definition succeeded (r : Response) : bool := (status r =? 200) || (status r =? 201).

(* ================================================================== *)
(** * controllers/cartDetailsController.ts                             *)
(* ================================================================== *)

Definition is_unique_violation (error : Exn) : bool :=
  match error with
  | SequelizeDatabaseError UniqueViolation => true
  | _ => false
  end.

(** The block "Check if cart exists, if not create one" of [addToCart]:
    either the response sent by its [catch], or the value of [cart]. *)
Definition addToCart_cart (transaction : Tx) (email : string)
  : M (Response + option Cart.t) :=
  try_catch
    (cartResults <- query_in transaction (Sql.select_active_cart (toLowerCase email)) ;;
     match hd_error cartResults with
     | Some cart => ret (inr (Some cart))
     | None =>
         try_catch
           (newId <- nextval_IdCart ;;
            createdCart <- query_in transaction
                             (Sql.insert_cart_on_conflict newId (toLowerCase email)) ;;
            ret (inr (hd_error createdCart)))
           (fun error =>
              if is_unique_violation error then
                existingCart <- query_in transaction
                                  (Sql.select_active_cart (toLowerCase email)) ;;
                match hd_error existingCart with
                | None =>
                    throw (Error "Failed to create or find cart after unique constraint violation")
                | Some cart => ret (inr (Some cart))
                end
              else throw error)
     end)
    (fun _error =>
       rollback transaction ;;
       r <- respond 500 CartIssue ;;
       ret (inl r)).

Definition addToCart (req : CartRequest) : M Response :=
  let email := params_email req in
  transaction <- sequelize_transaction ;;
  try_catch
    (match body_recordId req, body_amount req with
     | Some recordId, Some amount =>
         if String.eqb email "" || (recordId =? 0) then
           rollback transaction ;;
           respond 400 MissingRequiredFields
         else
           let parsedAmount := amount in
           if parsedAmount <=? 0 then
             rollback transaction ;;
             respond 400 AmountMustBeGreaterThan0
           else
             match user req with
             | None =>
                 rollback transaction ;;
                 respond 401 AuthenticationRequired
             | Some u =>
                 if negb (String.eqb (toLowerCase (UserPayload.email u)) (toLowerCase email))
                    && negb (String.eqb (UserPayload.role u) "Admin") then
                   rollback transaction ;;
                   respond 403 NotAuthorized
                 else
                   record <- query_in transaction (Sql.select_record recordId) ;;
                   match hd_error record with
                   | None =>
                       rollback transaction ;;
                       respond 404 RecordNotFound
                   | Some recordData =>
                       if RecordItem.Stock recordData <? parsedAmount then
                         rollback transaction ;;
                         respond 400 (NotEnoughStock (RecordItem.Stock recordData))
                       else
                         resolved <- addToCart_cart transaction email ;;
                         match resolved with
                         | inl response => ret response
                         | inr None => throw TypeError      (* cart.IdCart *)
                         | inr (Some cart) =>
                             existing <- query_in transaction
                                           (Sql.select_cart_detail (Cart.IdCart cart) recordId) ;;
                             match hd_error existing with
                             | Some existingCartItem =>
                                 let newAmount :=
                                   CartDetail.Amount existingCartItem + parsedAmount in
                                 query_in transaction
                                   (Sql.set_amount (CartDetail.IdCartDetail existingCartItem)
                                                   newAmount)
                             | None =>
                                 newId <- nextval_IdCartDetail ;;
                                 query_in transaction
                                   (Sql.insert_cart_detail newId (Cart.IdCart cart) recordId
                                      parsedAmount (RecordItem.Price recordData))
                             end ;;
                             query_in transaction (Sql.add_to_stock recordId (- parsedAmount)) ;;
                             let priceToAdd := RecordItem.Price recordData * parsedAmount in
                             query_in transaction
                               (Sql.add_to_total (Cart.IdCart cart) priceToAdd) ;;
                             commit transaction ;;
                             updated <- query (Sql.select_record recordId) ;;
                             match hd_error updated with
                             | None => throw TypeError   (* updatedRecord.Stock *)
                             | Some updatedRecord =>
                                 respond 200 (ItemAddedToCart (RecordItem.Stock updatedRecord)
                                                              (Cart.IdCart cart))
                             end
                         end
                   end
             end
     | _, _ =>
         rollback transaction ;;
         respond 400 MissingRequiredFields
     end)
    (fun _error =>
       try_catch (rollback transaction) (fun _rollbackError => ret tt) ;;
       respond 500 InternalServerError).

(** The block "If no active cart, create one" of [removeFromCart]. *)
Definition removeFromCart_cart (transaction : Tx) (email : string)
           (cartResults : list Cart.t) : M (Response + Cart.t) :=
  match hd_error cartResults with
  | Some cart => ret (inr cart)
  | None =>
      try_catch
        (cart <- createCart email true (Some transaction) ;;
         ret (inr cart))
        (fun _error =>
           rollback transaction ;;
           r <- respond 500 CartCreationIssue ;;
           ret (inl r))
  end.

Definition removeFromCart (req : CartRequest) : M Response :=
  let email := params_email req in
  transaction <- sequelize_transaction ;;
  try_catch
    (match body_recordId req, body_amount req with
     | Some recordId, Some amount =>
         if String.eqb email "" || (recordId =? 0) then
           rollback transaction ;;
           respond 400 MissingRequiredFields
         else
           let parsedAmount := amount in
           if parsedAmount <=? 0 then
             rollback transaction ;;
             respond 400 AmountMustBeGreaterThan0
           else
             match user req with
             | None =>
                 rollback transaction ;;
                 respond 401 AuthenticationRequired
             | Some u =>
                 if negb (String.eqb (toLowerCase (UserPayload.email u)) (toLowerCase email))
                    && negb (String.eqb (UserPayload.role u) "Admin") then
                   rollback transaction ;;
                   respond 403 NotAuthorized
                 else
                   cartResults <- query_in transaction
                                    (Sql.select_active_cart (toLowerCase email)) ;;
                   resolved <- removeFromCart_cart transaction email cartResults ;;
                   match resolved with
                   | inl response => ret response
                   | inr cart =>
                       cartItemResults <- query_in transaction
                                            (Sql.select_cart_detail (Cart.IdCart cart) recordId) ;;
                       match hd_error cartItemResults with
                       | None =>
                           rollback transaction ;;
                           respond 404 ItemNotFoundInCart
                       | Some cartDetail =>
                           if CartDetail.Amount cartDetail <? parsedAmount then
                             rollback transaction ;;
                             respond 400 (CannotRemoveMore (CartDetail.Amount cartDetail))
                           else
                             let newAmount := CartDetail.Amount cartDetail - parsedAmount in
                             let priceToDeduct := CartDetail.Price cartDetail * parsedAmount in
                             (if newAmount =? 0 then
                                query_in transaction
                                  (Sql.delete_cart_detail (CartDetail.IdCartDetail cartDetail))
                              else
                                query_in transaction
                                  (Sql.set_amount (CartDetail.IdCartDetail cartDetail) newAmount)) ;;
                             query_in transaction (Sql.add_to_stock recordId parsedAmount) ;;
                             query_in transaction
                               (Sql.add_to_total (Cart.IdCart cart) (- priceToDeduct)) ;;
                             commit transaction ;;
                             updated <- query (Sql.select_record recordId) ;;
                             match hd_error updated with
                             | None => throw TypeError   (* updatedRecord.Stock *)
                             | Some updatedRecord =>
                                 respond 200
                                   (ItemRemovedFromCart (RecordItem.Stock updatedRecord)
                                      (if 0 <? newAmount then newAmount else 0))
                             end
                       end
                   end
             end
     | _, _ =>
         rollback transaction ;;
         respond 400 MissingRequiredFields
     end)
    (fun _error =>
       try_catch (rollback transaction) (fun _rollbackError => ret tt) ;;
       respond 500 InternalServerError).

(* ================================================================== *)
(** * controllers/ordersController.ts                                  *)
(* ================================================================== *)

(** [now] is the value of [new Date()].  No call of the function takes a
    transaction: each statement commits on its own. *)
Definition createOrderFromCart (now : Z) (email : string) : M Response :=
  if String.eqb email "" then respond 400 EmailIsRequired
  else
    try_catch
      (cart <- getActiveCartByEmail email None ;;
       match cart with
       | None => respond 400 CartEmptyOrNotFound
       | Some cart =>
           if Cart.TotalPrice cart <=? 0 then respond 400 CartEmptyOrNotFound
           else
             cartDetails <- getCartDetailsByCartId (Cart.IdCart cart) ;;
             if Nat.eqb (List.length cartDetails) 0 then respond 400 CartIsEmpty
             else
               order <- createOrder now email (Cart.TotalPrice cart) (Cart.IdCart cart) ;;
               Promise_all
                 (map (fun detail =>
                         createOrderDetail (Order.IdOrder order)
                           (CartDetail.RecordId detail)
                           (CartDetail.Amount detail)
                           (CartDetail.Price detail) ;;
                         ret tt)
                      cartDetails) ;;
               Promise_all
                 [ removeAllDetailsFromCart (Cart.IdCart cart);
                   updateCartTotalPrice (Cart.IdCart cart) (- Cart.TotalPrice cart) ] ;;
               respond 201 (OrderCreated (Order.IdOrder order))
       end)
      (fun _error => respond 500 FailedToCreateOrder).

(* ================================================================== *)
(** * Quantities the claims speak about                                *)
(* ================================================================== *)

Fixpoint sumZ (l : list Z) : Z :=
  match l with
  | [] => 0
  | x :: l' => x + sumZ l'
  end.

(** The stock of an item: the "Stock" column of its row. *)
Definition stock (recordId : Z) (db : DB) : option Z :=
  option_map RecordItem.Stock (hd_error (fst (Sql.select_record recordId db))).

(** The catalogue price of an item. *)
Definition price (recordId : Z) (db : DB) : option Z :=
  option_map RecordItem.Price (hd_error (fst (Sql.select_record recordId db))).

(** The units of an item held by cart lines, all carts together. *)
Definition held (recordId : Z) (l : list CartDetail.t) : Z :=
  sumZ (map CartDetail.Amount (filter (fun d => CartDetail.RecordId d =? recordId) l)).

Definition reserved (recordId : Z) (db : DB) : Z := held recordId (CartDetails db).

(** The lines of one cart for one item. *)
Definition lines_of (cartId recordId : Z) (db : DB) : list CartDetail.t :=
  fst (Sql.select_cart_detail cartId recordId db).



(** No failure of the database is scheduled. *)
Definition healthy (s : Store) : Prop := st_faults s = [].

(** The writes of a committed [addToCart], on the tables [db] as they are once
    the cart is resolved. *)
Definition addToCart_writes (recordId amount : Z) (recordData : RecordItem.t)
           (cart : Cart.t) (newId : Z) (db : DB) : DB :=
  let db1 :=
    match hd_error (lines_of (Cart.IdCart cart) recordId db) with
    | Some existingCartItem =>
        snd (Sql.set_amount (CartDetail.IdCartDetail existingCartItem)
                            (CartDetail.Amount existingCartItem + amount) db)
    | None =>
        snd (Sql.insert_cart_detail newId (Cart.IdCart cart) recordId amount
                                    (RecordItem.Price recordData) db)
    end in
  snd (Sql.add_to_total (Cart.IdCart cart) (RecordItem.Price recordData * amount)
         (snd (Sql.add_to_stock recordId (- amount) db1))).

(** The writes of a committed [removeFromCart]. *)
Definition removeFromCart_writes (recordId amount : Z) (cart : Cart.t)
           (cartDetail : CartDetail.t) (db : DB) : DB :=
  let newAmount := CartDetail.Amount cartDetail - amount in
  let db1 :=
    if newAmount =? 0
    then snd (Sql.delete_cart_detail (CartDetail.IdCartDetail cartDetail) db)
    else snd (Sql.set_amount (CartDetail.IdCartDetail cartDetail) newAmount db) in
  snd (Sql.add_to_total (Cart.IdCart cart) (- (CartDetail.Price cartDetail * amount))
         (snd (Sql.add_to_stock recordId amount db1))).

(** How [addToCart] resolves the cart: the active cart the SELECT finds, or
    the row the INSERT ... ON CONFLICT answers. *)
Definition addToCart_resolves (email : string) (newId : Z) (db : DB)
           (cart : Cart.t) (db1 : DB) : Prop :=
  (hd_error (fst (Sql.select_active_cart (toLowerCase email) db)) = Some cart /\ db1 = db)
  \/
  (hd_error (fst (Sql.select_active_cart (toLowerCase email) db)) = None /\
   hd_error (fst (Sql.insert_cart_on_conflict newId (toLowerCase email) db)) = Some cart /\
   db1 = snd (Sql.insert_cart_on_conflict newId (toLowerCase email) db)).

(** How [removeFromCart] resolves the cart: the active cart the SELECT finds,
    or the one [createCart] finds or creates. *)
Definition removeFromCart_resolves (email : string) (newId : Z) (db : DB)
           (cart : Cart.t) (db1 : DB) : Prop :=
  (hd_error (fst (Sql.select_active_cart (toLowerCase email) db)) = Some cart /\ db1 = db)
  \/
  (hd_error (fst (Sql.select_active_cart (toLowerCase email) db)) = None /\
   ((fst (Sql.find_active_cart (normalizeEmail email) db) = Some cart /\ db1 = db) \/
    (fst (Sql.find_active_cart (normalizeEmail email) db) = None /\
     cart = Cart.mk newId (normalizeEmail email) 0 true /\
     db1 = snd (Sql.create_cart newId (normalizeEmail email) 0 true db)))).

(* ================================================================== *)
(** * Symbolic execution of the handlers                               *)
(* ================================================================== *)

Lemma snd_select_record id db : snd (Sql.select_record id db) = db.
Proof. reflexivity. Qed.
Lemma snd_select_active_cart e db : snd (Sql.select_active_cart e db) = db.
Proof. reflexivity. Qed.
Lemma snd_find_active_cart e db : snd (Sql.find_active_cart e db) = db.
Proof. reflexivity. Qed.
Lemma snd_find_cart_by_pk id db : snd (Sql.find_cart_by_pk id db) = db.
Proof. reflexivity. Qed.
Lemma snd_select_cart_detail c r db : snd (Sql.select_cart_detail c r db) = db.
Proof. reflexivity. Qed.
Lemma snd_select_cart_details c db : snd (Sql.select_cart_details c db) = db.
Proof. reflexivity. Qed.
Lemma fst_create_cart n e t b db : fst (Sql.create_cart n e t b db) = Cart.mk n e t b.
Proof. reflexivity. Qed.
Lemma fst_insert_order o db : fst (Sql.insert_order o db) = o.
Proof. reflexivity. Qed.
Lemma fst_insert_order_detail d db : fst (Sql.insert_order_detail d db) = d.
Proof. reflexivity. Qed.

Create Rewrite HintDb sql_reads.
#[global] Hint Rewrite snd_select_record snd_select_active_cart snd_find_active_cart
  snd_find_cart_by_pk snd_select_cart_detail snd_select_cart_details
  fst_create_cart fst_insert_order fst_insert_order_detail : sql_reads.

Ltac unfold_handlers H :=
  unfold run, addToCart, addToCart_cart, removeFromCart, removeFromCart_cart,
    createCart, Cart_findOrCreate, respond, bind, try_catch, ret, throw,
    query_opt, query_in, query, commit, rollback, sequelize_transaction,
    nextval_IdCart, nextval_IdCartDetail in H.

Ltac cbn_in H :=
  cbn -[Z.add Z.mul Z.sub Z.leb Z.ltb Z.eqb Z.opp String.eqb toLowerCase trim
        normalizeEmail LOWER TRIM
        Sql.select_record Sql.add_to_stock Sql.set_stock Sql.set_price
        Sql.select_active_cart Sql.insert_cart_on_conflict Sql.find_active_cart
        Sql.create_cart Sql.find_cart_by_pk Sql.add_to_total Sql.save_enabled
        Sql.enable_disabled_carts Sql.select_cart_detail Sql.select_cart_details
        Sql.set_amount Sql.insert_cart_detail Sql.delete_cart_detail
        Sql.delete_cart_details Sql.insert_order Sql.insert_order_detail] in H.

Ltac simp_in H :=
  cbn_in H; autorewrite with sql_reads in H; cbn_in H.

Ltac innermost_scrutinee x :=
  lazymatch x with
  | context [match ?y with _ => _ end] => innermost_scrutinee y
  | _ => x
  end.

Ltac split_case H :=
  match type of H with
  | context [match ?x with _ => _ end] =>
      let y := innermost_scrutinee x in
      destruct y eqn:?; simp_in H
  end.

Ltac result_of H :=
  apply pair_equal_spec in H; destruct H as [<- <-].

Ltac unchanged H :=
  result_of H; left; cbn; split; [reflexivity | split; [lia | ]];
  intros ? [= <-]; discriminate.

(** What a run of [addToCart] leaves in the tables: either nothing, or the
    writes of the committed transaction. *)
Lemma addToCart_tables (req : CartRequest) (s s' : Store) (r : Exn + Response) :
  run (addToCart req) s = (r, s') ->
  (st_tables s' = st_tables s /\
   seq_IdCartDetail (st_seqs s) <= seq_IdCartDetail (st_seqs s') /\
   forall response, r = inr response -> status response <> 200)
  \/
  exists recordId amount recordData cart db1,
    body_recordId req = Some recordId /\ body_amount req = Some amount /\
    0 < amount /\
    hd_error (fst (Sql.select_record recordId (st_tables s))) = Some recordData /\
    amount <= RecordItem.Stock recordData /\
    addToCart_resolves (params_email req) (seq_IdCart (st_seqs s)) (st_tables s) cart db1 /\
    st_tables s' =
      addToCart_writes recordId amount recordData cart
                       (seq_IdCartDetail (st_seqs s)) db1 /\
    seq_IdCartDetail (st_seqs s') =
      match hd_error (lines_of (Cart.IdCart cart) recordId db1) with
      | Some _ => seq_IdCartDetail (st_seqs s)
      | None => seq_IdCartDetail (st_seqs s) + 1
      end.
Proof.
  destruct s as [db sq fl]. destruct req as [em rid am us].
  intros H. unfold_handlers H. simp_in H.
  repeat (split_case H).
  all: try (unchanged H).
  all: result_of H; right;
       cbn [st_tables st_seqs seq_IdCart seq_IdCartDetail
            params_email body_recordId body_amount].
  all: match goal with
       | Hr : hd_error (fst (Sql.select_record ?rid _)) = Some ?rd,
         Ha : (?a <=? 0) = false,
         Hs : (RecordItem.Stock ?rd <? ?a) = false |- _ =>
           apply Z.leb_gt in Ha; apply Z.ltb_ge in Hs; exists rid, a, rd
       end.
  all: match goal with
       | Hc : hd_error (fst (Sql.select_active_cart _ _)) = Some ?c |- _ =>
           exists c, db;
           repeat (split; [ solve [ reflexivity | assumption
                                  | left; split; [assumption | reflexivity] ] | ])
       | Hn : hd_error (fst (Sql.select_active_cart _ _)) = None,
         Hc : hd_error (fst (Sql.insert_cart_on_conflict ?i ?e ?d)) = Some ?c |- _ =>
           exists c, (snd (Sql.insert_cart_on_conflict i e d));
           repeat (split; [ solve [ reflexivity | assumption
                                  | right; repeat split; assumption ] | ])
       end.
  all: unfold addToCart_writes, lines_of;
       match goal with
       | H : hd_error (fst (Sql.select_cart_detail _ _ _)) = _ |- _ => rewrite H
       end;
       cbn; split; reflexivity.
Qed.

(** What a run of [removeFromCart] leaves in the tables. *)
Lemma removeFromCart_tables (req : CartRequest) (s s' : Store) (r : Exn + Response) :
  run (removeFromCart req) s = (r, s') ->
  (st_tables s' = st_tables s /\
   seq_IdCartDetail (st_seqs s') = seq_IdCartDetail (st_seqs s) /\
   forall response, r = inr response -> status response <> 200)
  \/
  exists recordId amount cart cartDetail db1,
    body_recordId req = Some recordId /\ body_amount req = Some amount /\
    0 < amount /\
    removeFromCart_resolves (params_email req) (seq_IdCart (st_seqs s)) (st_tables s)
                            cart db1 /\
    hd_error (lines_of (Cart.IdCart cart) recordId db1) = Some cartDetail /\
    amount <= CartDetail.Amount cartDetail /\
    st_tables s' = removeFromCart_writes recordId amount cart cartDetail db1 /\
    seq_IdCartDetail (st_seqs s') = seq_IdCartDetail (st_seqs s).
Proof.
  destruct s as [db sq fl]. destruct req as [em rid am us].
  intros H. unfold_handlers H. simp_in H.
  repeat (split_case H).
  all: try (result_of H; left; cbn; split; [reflexivity | split; [reflexivity | ]];
            intros ? [= <-]; discriminate).
  all: result_of H; right;
       cbn [st_tables st_seqs seq_IdCart seq_IdCartDetail
            params_email body_recordId body_amount].
  all: match goal with
       | Ha : (?a <=? 0) = false,
         Hl : hd_error (fst (Sql.select_cart_detail _ ?rid
                               (snd (Sql.create_cart ?n ?e ?t ?b ?d)))) = Some ?cd,
         Hs : (CartDetail.Amount ?cd <? ?a) = false |- _ =>
           apply Z.leb_gt in Ha; apply Z.ltb_ge in Hs;
           exists rid, a, (Cart.mk n e t b), cd, (snd (Sql.create_cart n e t b d))
       | Ha : (?a <=? 0) = false,
         Hl : hd_error (fst (Sql.select_cart_detail (Cart.IdCart ?c) ?rid ?d)) = Some ?cd,
         Hs : (CartDetail.Amount ?cd <? ?a) = false |- _ =>
           apply Z.leb_gt in Ha; apply Z.ltb_ge in Hs; exists rid, a, c, cd, d
       end.
  all: unfold removeFromCart_resolves, removeFromCart_writes, lines_of, normalizeEmail;
       repeat match goal with
              | H : (_ =? 0) = _ |- _ => rewrite H
              end;
       repeat (split; [ solve [ reflexivity | assumption | auto 6 ] | ]);
       try reflexivity.
Qed.

(* ================================================================== *)
(** * Facts about rows and sums                                        *)
(* ================================================================== *)

Section Rows.

Lemma hd_error_filter {A} (p : A -> bool) (l : list A) (x : A) :
  hd_error (filter p l) = Some x -> In x l /\ p x = true.
Proof.
  intros H.
  assert (In x (filter p l)) as Hin
      by (destruct (filter p l); inversion H; subst; now left).
  now apply filter_In in Hin.
Qed.

Lemma sumZ_app (l1 l2 : list Z) : sumZ (l1 ++ l2) = sumZ l1 + sumZ l2.
Proof. induction l1; cbn; lia. Qed.

Variable i : Z.

Lemma set_amount_absent (k v : Z) (l : list CartDetail.t) :
  ~ In k (map CartDetail.IdCartDetail l) ->
  map (fun d => if CartDetail.IdCartDetail d =? k
                then CartDetail.with_Amount v d else d) l = l.
Proof.
  induction l as [|a l IH]; cbn; intros Hk; [reflexivity|].
  destruct (Z.eqb_spec (CartDetail.IdCartDetail a) k) as [E|E].
  - exfalso. apply Hk. now left.
  - rewrite IH; [reflexivity|]. intros Hin. apply Hk. now right.
Qed.

Lemma delete_absent (k : Z) (l : list CartDetail.t) :
  ~ In k (map CartDetail.IdCartDetail l) ->
  filter (fun d => negb (CartDetail.IdCartDetail d =? k)) l = l.
Proof.
  induction l as [|a l IH]; cbn; intros Hk; [reflexivity|].
  destruct (Z.eqb_spec (CartDetail.IdCartDetail a) k) as [E|E]; cbn.
  - exfalso. apply Hk. now left.
  - rewrite IH; [reflexivity|]. intros Hin. apply Hk. now right.
Qed.







(** The first row of an item after [UPDATE "Records" SET "Stock" = "Stock" + delta]. *)
Lemma stock_add_to_stock (j delta : Z) (db : DB) :
  stock i (snd (Sql.add_to_stock j delta db))
  = if i =? j then option_map (fun st => st + delta) (stock i db) else stock i db.
Proof.
  unfold stock, Sql.add_to_stock, Sql.select_record. cbn.
  induction (Records db) as [|a l IH]; cbn.
  - now destruct (i =? j).
  - destruct (Z.eqb_spec (RecordItem.IdRecord a) j) as [E|E]; cbn.
    + destruct (Z.eqb_spec (RecordItem.IdRecord a) i) as [E'|E']; cbn.
      * subst. now rewrite Z.eqb_refl.
      * exact IH.
    + destruct (Z.eqb_spec (RecordItem.IdRecord a) i) as [E'|E']; cbn.
      * subst. destruct (Z.eqb_spec (RecordItem.IdRecord a) j); [contradiction|reflexivity].
      * exact IH.
Qed.

End Rows.

(* ================================================================== *)
(** * Stock conservation                                               *)
(* ================================================================== *)


Lemma addToCart_resolves_frame email newId db cart db1 :
  addToCart_resolves email newId db cart db1 ->
  Records db1 = Records db /\ CartDetails db1 = CartDetails db.
Proof.
  intros [[_ ->]|(_ & _ & ->)]; [now split|].
  unfold Sql.insert_cart_on_conflict.
  now destruct (find _ (Carts db)).
Qed.

Lemma removeFromCart_resolves_frame email newId db cart db1 :
  removeFromCart_resolves email newId db cart db1 ->
  Records db1 = Records db /\ CartDetails db1 = CartDetails db.
Proof.
  intros [[_ ->]|(_ & [[_ ->]|(_ & _ & ->)])]; now split.
Qed.

Lemma stock_frame (i : Z) (db db' : DB) :
  Records db' = Records db -> stock i db' = stock i db.
Proof. unfold stock, Sql.select_record. cbn. now intros ->. Qed.





Section Statements.

Variable i : Z.

Lemma stock_add_to_total c b db : stock i (snd (Sql.add_to_total c b db)) = stock i db.
Proof. reflexivity. Qed.





End Statements.

Lemma lines_of_In cartId recordId db x :
  hd_error (lines_of cartId recordId db) = Some x ->
  In x (CartDetails db) /\ CartDetail.CartId x = cartId /\ CartDetail.RecordId x = recordId.
Proof.
  intros H. apply hd_error_filter in H as [Hin Hp].
  apply andb_prop in Hp as [Hc Hr]. apply Z.eqb_eq in Hc, Hr. auto.
Qed.




(** The cart mutations a client can ask for. *)
Inductive CartOp :=
| AddItem (req : CartRequest)
| RemoveItem (req : CartRequest).

Definition handler (op : CartOp) : M Response :=
  match op with
  | AddItem req => addToCart req
  | RemoveItem req => removeFromCart req
  end.

Definition apply_op (s : Store) (op : CartOp) : Store := snd (run (handler op) s).

Definition apply_ops (ops : list CartOp) (s : Store) : Store := fold_left apply_op ops s.





(* ================================================================== *)
(** * Requests that pass validation and authorisation                  *)
(* ================================================================== *)

(** The request names an item and a positive amount, and its sender is the
    owner of the cart or an administrator. *)
Definition request_ok (req : CartRequest) (recordId amount : Z) : Prop :=
  body_recordId req = Some recordId /\ body_amount req = Some amount /\
  params_email req <> "" /\ recordId <> 0 /\ 0 < amount /\
  exists u, user req = Some u /\
            (toLowerCase (UserPayload.email u) = toLowerCase (params_email req)
             \/ UserPayload.role u = "Admin").

Lemma request_ok_guards (em : string) (rid am : option Z) (us : option UserPayload.t)
      (recordId amount : Z) :
  request_ok (mkCartRequest em rid am us) recordId amount ->
  rid = Some recordId /\ am = Some amount /\
  exists u,
    us = Some u /\
    (String.eqb em "" || (recordId =? 0)) = false /\
    (amount <=? 0) = false /\
    (negb (String.eqb (toLowerCase (UserPayload.email u)) (toLowerCase em))
     && negb (String.eqb (UserPayload.role u) "Admin")) = false.
Proof.
  unfold request_ok. cbn.
  intros (Hr & Ha & Hem & Hrid & Hpos & u & Hu & Hauth).
  split; [assumption|]. split; [assumption|]. exists u. split; [assumption|].
  split; [|split].
  - apply String.eqb_neq in Hem. apply Z.eqb_neq in Hrid. now rewrite Hem, Hrid.
  - now apply Z.leb_gt.
  - destruct Hauth as [->| ->]; [rewrite String.eqb_refl | rewrite String.eqb_refl, andb_comm];
      reflexivity.
Qed.

Ltac unfold_handlers_goal :=
  unfold run, addToCart, addToCart_cart, removeFromCart, removeFromCart_cart,
    createCart, Cart_findOrCreate, respond, bind, try_catch, ret, throw,
    query_opt, query_in, query, commit, rollback, sequelize_transaction,
    nextval_IdCart, nextval_IdCartDetail.

Ltac cbn_goal :=
  cbn -[Z.add Z.mul Z.sub Z.leb Z.ltb Z.eqb Z.opp String.eqb toLowerCase trim
        normalizeEmail LOWER TRIM
        Sql.select_record Sql.add_to_stock Sql.set_stock Sql.set_price
        Sql.select_active_cart Sql.insert_cart_on_conflict Sql.find_active_cart
        Sql.create_cart Sql.find_cart_by_pk Sql.add_to_total Sql.save_enabled
        Sql.enable_disabled_carts Sql.select_cart_detail Sql.select_cart_details
        Sql.set_amount Sql.insert_cart_detail Sql.delete_cart_detail
        Sql.delete_cart_details Sql.insert_order Sql.insert_order_detail].

Ltac simp_goal :=
  cbn_goal; autorewrite with sql_reads; cbn_goal.

(** Follow the branch that a hypothesis decides. *)
Ltac follow_known :=
  match goal with
  | |- context [match ?x with _ => _ end] =>
      let y := innermost_scrutinee x in
      match goal with
      | H : y = _ |- _ => rewrite H
      end
  end.

Ltac exec_goal := unfold_handlers_goal; simp_goal; repeat (follow_known; simp_goal).

Lemma stock_Some i db st :
  stock i db = Some st ->
  exists r, hd_error (fst (Sql.select_record i db)) = Some r /\ RecordItem.Stock r = st.
Proof.
  unfold stock. destruct (hd_error _) as [r|]; cbn; intros [= <-]. now exists r.
Qed.


(* ================================================================== *)
(** * Reading the tables after a write                                 *)
(* ================================================================== *)










(* ================================================================== *)
(** * Normal forms of e-mail addresses                                 *)
(* ================================================================== *)

Section Trimming.

Variables ws1 ws2 : ascii -> bool.
Hypothesis ws1_ws2 : forall c, ws1 c = true -> ws2 c = true.

Lemma trim_start_absorbs (s : string) :
  Str.trim_start ws2 (Str.trim_start ws1 s) = Str.trim_start ws2 s.
Proof.
  induction s as [|c s IH]; cbn; [reflexivity|].
  destruct (ws1 c) eqn:E1.
  - now rewrite (ws1_ws2 c E1).
  - reflexivity.
Qed.

Lemma trim_end_empty_start (s : string) :
  Str.trim_end ws1 s = EmptyString -> Str.trim_start ws2 s = EmptyString.
Proof.
  induction s as [|c s IH]; cbn; [reflexivity|].
  destruct (Str.trim_end ws1 s); [|discriminate].
  destruct (ws1 c) eqn:E1; [|discriminate].
  intros _. rewrite (ws1_ws2 c E1). now apply IH.
Qed.

Lemma trim_end_absorbs (s : string) :
  Str.trim_end ws2 (Str.trim_end ws1 s) = Str.trim_end ws2 s.
Proof.
  induction s as [|c s IH]; cbn; [reflexivity|].
  destruct (Str.trim_end ws1 s) as [|c' t] eqn:E.
  - cbn in IH. rewrite <- IH.
    destruct (ws1 c) eqn:E1; cbn; [now rewrite (ws1_ws2 c E1)|reflexivity].
  - rewrite <- IH. reflexivity.
Qed.

Lemma trim_between (s : string) :
  Str.trim_end ws2 (Str.trim_start ws2 (Str.trim_end ws1 s))
  = Str.trim_end ws2 (Str.trim_start ws2 s).
Proof.
  induction s as [|c s IH]; [reflexivity|].
  destruct (ws2 c) eqn:E2.
  - cbn [Str.trim_start Str.trim_end]. rewrite E2.
    destruct (Str.trim_end ws1 s) as [|c' t] eqn:E.
    + rewrite (trim_end_empty_start s E).
      destruct (ws1 c); cbn; [reflexivity|now rewrite E2].
    + cbn [Str.trim_start]. rewrite E2. exact IH.
  - assert (E1 : ws1 c = false)
      by (destruct (ws1 c) eqn:E1; [rewrite (ws1_ws2 c E1) in E2; discriminate|reflexivity]).
    assert (Hs : forall t, Str.trim_start ws2 (String c t) = String c t)
      by (intros t; cbn; now rewrite E2).
    rewrite Hs.
    assert (Hhead : exists t, Str.trim_end ws1 (String c s) = String c t).
    { cbn. destruct (Str.trim_end ws1 s); rewrite ?E1; eauto. }
    destruct Hhead as [t Ht]. rewrite Ht, Hs, <- Ht.
    apply trim_end_absorbs.
Qed.

Lemma trim_with_absorbs (s : string) :
  Str.trim_with ws2 (Str.trim_with ws1 s) = Str.trim_with ws2 s.
Proof.
  unfold Str.trim_with. now rewrite trim_between, trim_start_absorbs.
Qed.

End Trimming.

Section Mapping.

Variable ws : ascii -> bool.
Variable f : ascii -> ascii.
Hypothesis ws_f : forall c, ws (f c) = ws c.

Lemma trim_start_map (s : string) :
  Str.trim_start ws (Str.map_ascii f s) = Str.map_ascii f (Str.trim_start ws s).
Proof.
  induction s as [|c s IH]; cbn; [reflexivity|].
  rewrite ws_f. now destruct (ws c).
Qed.

Lemma trim_end_map (s : string) :
  Str.trim_end ws (Str.map_ascii f s) = Str.map_ascii f (Str.trim_end ws s).
Proof.
  induction s as [|c s IH]; cbn; [reflexivity|].
  rewrite IH, ws_f.
  destruct (Str.trim_end ws s); cbn; [now destruct (ws c)|reflexivity].
Qed.

Lemma trim_with_map (s : string) :
  Str.trim_with ws (Str.map_ascii f s) = Str.map_ascii f (Str.trim_with ws s).
Proof. unfold Str.trim_with. now rewrite trim_start_map, trim_end_map. Qed.

End Mapping.

Lemma js_space_lower (c : ascii) : Str.js_space (Str.lower_ascii c) = Str.js_space c.
Proof. destruct c as [[] [] [] [] [] [] [] []]; reflexivity. Qed.

Lemma sql_space_js_space (c : ascii) : Str.sql_space c = true -> Str.js_space c = true.
Proof. destruct c as [[] [] [] [] [] [] [] []]; vm_compute; auto. Qed.

Lemma lower_ascii_idem (c : ascii) : Str.lower_ascii (Str.lower_ascii c) = Str.lower_ascii c.
Proof. destruct c as [[] [] [] [] [] [] [] []]; reflexivity. Qed.

Lemma toLowerCase_idem (s : string) : toLowerCase (toLowerCase s) = toLowerCase s.
Proof.
  unfold toLowerCase. induction s as [|c s IH]; cbn; [reflexivity|].
  now rewrite lower_ascii_idem, IH.
Qed.

Lemma trim_toLowerCase (s : string) : trim (toLowerCase s) = toLowerCase (trim s).
Proof. apply trim_with_map. exact js_space_lower. Qed.

(** The handler's SQL comparison identifies the user: a row it accepts has
    the user's normal form. *)
Lemma sql_match_normal (userEmail email : string) :
  LOWER (TRIM userEmail) = toLowerCase email ->
  normalizeEmail userEmail = normalizeEmail email.
Proof.
  intros H. unfold normalizeEmail.
  rewrite <- (trim_toLowerCase email), <- H.
  change (LOWER (TRIM userEmail)) with (toLowerCase (TRIM userEmail)).
  rewrite trim_toLowerCase. f_equal.
  symmetry. apply (trim_with_absorbs Str.sql_space Str.js_space sql_space_js_space).
Qed.

(** So does cartService's comparison. *)
Lemma normal_match_normal (userEmail email : string) :
  userEmail = normalizeEmail email ->
  normalizeEmail userEmail = normalizeEmail email.
Proof.
  intros ->. unfold normalizeEmail.
  rewrite trim_toLowerCase, toLowerCase_idem. f_equal.
  apply (trim_with_absorbs Str.js_space Str.js_space). auto.
Qed.

(* ================================================================== *)
(** * A running example (the scenario of the specification)            *)
(* ================================================================== *)

Module Example.

Definition alice : UserPayload.t := UserPayload.mk "alice@shop.test" "User".

Definition request (recordId amount : Z) : CartRequest :=
  mkCartRequest "alice@shop.test" (Some recordId) (Some amount) (Some alice).

(** Item 1: stock 10, price $3.00.  Alice's cart is active and empty. *)
Definition store : Store :=
  mkStore (mkDB [RecordItem.mk 1 300 10]
                [Cart.mk 1 "alice@shop.test" 0 true] [] [] [])
          (mkSeq 2 1 1 1) [].

Definition scenario : list CartOp :=
  [AddItem (request 1 4); AddItem (request 1 1); RemoveItem (request 1 2)].

End Example.

(* ================================================================== *)
(** * Concrete runs                                                    *)
(* ================================================================== *)

Module Runs.

(** The scenario of the specification, run to its end: stock 7, one line of
    amount 3, total $9.00. *)
Definition after_scenario : Store := apply_ops Example.scenario Example.store.

(** Two adds of item 1 (2 then 3 units) around a price change from $3.00 to
    $4.50, then the removal of the 5 units. *)
Definition first_add : Store := snd (run (addToCart (Example.request 1 2)) Example.store).
Definition repriced : Store := snd (run (update_Price 1 450) first_add).
Definition second_add : Store := snd (run (addToCart (Example.request 1 3)) repriced).
Definition all_removed : Store := snd (run (removeFromCart (Example.request 1 5)) second_add).

(** A shop with two items; the second one is given away (price 0) before
    Alice puts two units of the first and one of the second in her cart. *)
Definition shop : Store :=
  mkStore (mkDB [RecordItem.mk 1 1000 10; RecordItem.mk 2 500 5]
                [Cart.mk 1 "alice@shop.test" 0 true] [] [] [])
          (mkSeq 2 1 1 1) [].
Definition basket : list CartOp :=
  [AddItem (Example.request 1 2); AddItem (Example.request 2 1)].
Definition free_item_cart : Store := apply_ops basket (snd (run (update_Price 2 0) shop)).

(** The same basket at full prices, with the database failing at the sixth
    round trip of the conversion (the DELETE of the cart lines). *)
Definition paid_cart : Store := apply_ops basket shop.
Definition paid_cart_delete_fails : Store :=
  mkStore (st_tables paid_cart) (st_seqs paid_cart)
          [None; None; None; None; None; Some OtherDbError].

(** Alice's cart holds four units of item 1 (stock 6 left). *)
Definition four_reserved : Store := snd (run (addToCart (Example.request 1 4)) Example.store).
(** ... or at the second one (the SELECT of the cart lines). *)
Definition four_reserved_read_fails : Store :=
  mkStore (st_tables four_reserved) (st_seqs four_reserved)
          [None; Some OtherDbError; None; None].

(** Bob has two carts, both disabled. *)
Definition two_disabled_carts : Store :=
  mkStore (mkDB [] [Cart.mk 1 "bob@shop.test" 0 false; Cart.mk 2 "bob@shop.test" 0 false]
                [] [] [])
          (mkSeq 3 1 1 1) [].

Definition bob : UserPayload.t := UserPayload.mk "bob@shop.test" "User".
Definition bob_request (recordId amount : Z) : CartRequest :=
  mkCartRequest "bob@shop.test" (Some recordId) (Some amount) (Some bob).

End Runs.

(** The carts of a user that are enabled. *)
Definition active_carts (email : string) (db : DB) : list Cart.t :=
  filter (fun c => Cart.Enabled c
                   && String.eqb (normalizeEmail (Cart.UserEmail c)) (normalizeEmail email))
         (Carts db).

Lemma request_ok_alice (recordId amount : Z) :
  recordId <> 0 -> 0 < amount -> request_ok (Example.request recordId amount) recordId amount.
Proof.
  intros Hr Ha. unfold request_ok, Example.request. cbn.
  repeat split; try assumption; try discriminate.
  exists Example.alice. split; [reflexivity|]. now left.
Qed.

Lemma request_ok_bob (recordId amount : Z) :
  recordId <> 0 -> 0 < amount -> request_ok (Runs.bob_request recordId amount) recordId amount.
Proof.
  intros Hr Ha. unfold request_ok, Runs.bob_request. cbn.
  repeat split; try assumption; try discriminate.
  exists Runs.bob. split; [reflexivity|]. now left.
Qed.

(* ================================================================== *)
(** * C1: stock conservation                                           *)
(* ================================================================== *)



Example scenario_stock :
  stock 1 (st_tables (apply_ops Example.scenario Example.store)) = Some 7 /\
  reserved 1 (st_tables (apply_ops Example.scenario Example.store)) = 3.
Proof. split; reflexivity. Qed.

(* ================================================================== *)
(** * C9: adding an item twice merges into one line                   *)
(* ================================================================== *)



(* ================================================================== *)
(** * C7: removing from a cart that does not exist                     *)
(* ================================================================== *)

(** No enabled cart belongs to the user (users are identified by the normal
    form of their e-mail address). *)
Definition no_active_cart (email : string) (db : DB) : Prop :=
  forall c, In c (Carts db) -> Cart.Enabled c = true ->
            normalizeEmail (Cart.UserEmail c) <> normalizeEmail email.

(** The foreign key of "CartDetails" on "Carts": every line belongs to a cart
    that has been created, so its "CartId" lies below the sequence. *)
Definition lines_belong_to_carts (s : Store) : Prop :=
  Forall (fun d => CartDetail.CartId d < seq_IdCart (st_seqs s))
         (CartDetails (st_tables s)).

Lemma no_active_cart_select (email : string) (db : DB) :
  no_active_cart email db ->
  hd_error (fst (Sql.select_active_cart (toLowerCase email) db)) = None.
Proof.
  intros Hno. destruct (hd_error _) as [c|] eqn:E; [exfalso|reflexivity].
  apply hd_error_filter in E as [Hin Hp]. apply andb_prop in Hp as [He Hen].
  apply String.eqb_eq in He. apply (Hno c Hin Hen). now apply sql_match_normal.
Qed.

Lemma no_active_cart_find (email : string) (db : DB) :
  no_active_cart email db ->
  fst (Sql.find_active_cart (normalizeEmail email) db) = None.
Proof.
  intros Hno. unfold Sql.find_active_cart. cbn [fst].
  destruct (find _ (Carts db)) as [c|] eqn:E; [exfalso|reflexivity].
  apply find_some in E as [Hin Hp]. apply andb_prop in Hp as [He Hen].
  apply String.eqb_eq in He. apply (Hno c Hin Hen). now apply normal_match_normal.
Qed.

Lemma new_cart_has_no_line (s : Store) (recordId : Z) (e : string) (t : Z) (b : bool) :
  lines_belong_to_carts s ->
  hd_error (lines_of (seq_IdCart (st_seqs s)) recordId
              (snd (Sql.create_cart (seq_IdCart (st_seqs s)) e t b (st_tables s)))) = None.
Proof.
  intros Hfk. destruct (hd_error _) as [d|] eqn:E; [exfalso|reflexivity].
  apply lines_of_In in E as (Hin & Hc & _).
  unfold lines_belong_to_carts in Hfk. rewrite Forall_forall in Hfk.
  specialize (Hfk d Hin). lia.
Qed.

(** C7 -- removeItem without an active cart.  The request is valid and its
    sender authorised, and no enabled cart belongs to the user.  Then no
    table is changed and the request does not succeed, whatever the database
    does; in particular no cart is left behind for the user.  When the
    database answers every statement, the response is NotFound (404). *)
Theorem removeItem_without_active_cart
        (s : Store) (req : CartRequest) (recordId amount : Z) :
  request_ok req recordId amount ->
  lines_belong_to_carts s ->
  no_active_cart (params_email req) (st_tables s) ->
  (forall r s', run (removeFromCart req) s = (r, s') ->
                st_tables s' = st_tables s /\
                no_active_cart (params_email req) (st_tables s') /\
                forall response, r = inr response -> status response <> 200)
  /\
  (healthy s ->
   exists s', run (removeFromCart req) s = (inr (mkResponse 404 ItemNotFoundInCart), s') /\
              is_NotFound (mkResponse 404 ItemNotFoundInCart) = true /\
              st_tables s' = st_tables s).
Proof.
  intros Hreq Hfk Hno.
  pose proof (no_active_cart_select _ _ Hno) as Hs1.
  pose proof (no_active_cart_find _ _ Hno) as Hs2.
  split.
  - intros r s' Hrun.
    apply removeFromCart_tables in Hrun
      as [(H & _ & Hr)
         |(rid & am & c & cd & db1 & Hrid & _ & _ & Hres & Hl & _)].
    + rewrite H. auto.
    + exfalso. destruct Hreq as (Hrid' & _).
      rewrite Hrid' in Hrid. injection Hrid as <-.
      destruct Hres as [[Hc _]|(_ & [[Hc _]|(_ & -> & ->)])]; [congruence|congruence|].
      cbn [Cart.IdCart] in Hl.
      now rewrite (new_cart_has_no_line s recordId _ 0 true Hfk) in Hl.
  - intros Hh. destruct req as [em rid am us].
    apply request_ok_guards in Hreq as (-> & -> & u & -> & Hg1 & Hg2 & Hg3).
    pose proof (new_cart_has_no_line s recordId (normalizeEmail em) 0 true Hfk) as Hs3.
    destruct s as [db sq fl]. unfold healthy in Hh.
    cbn [st_tables st_seqs st_faults params_email] in *. subst fl.
    unfold lines_of in Hs3. unfold normalizeEmail in Hs2, Hs3.
    eexists. split.
    { exec_goal. reflexivity. }
    split; reflexivity.
Qed.

(** C7 at work: Bob, who has no cart, asks to remove an item. *)
Lemma removeItem_without_active_cart_witness :
  request_ok (Runs.bob_request 1 2) 1 2 /\
  lines_belong_to_carts Runs.four_reserved /\
  no_active_cart "bob@shop.test" (st_tables Runs.four_reserved) /\
  healthy Runs.four_reserved /\
  exists s',
    run (removeFromCart (Runs.bob_request 1 2)) Runs.four_reserved
    = (inr (mkResponse 404 ItemNotFoundInCart), s') /\
    is_NotFound (mkResponse 404 ItemNotFoundInCart) = true /\
    st_tables s' = st_tables Runs.four_reserved.
Proof.
  assert (Hreq : request_ok (Runs.bob_request 1 2) 1 2) by (apply request_ok_bob; lia).
  assert (Hfk : lines_belong_to_carts Runs.four_reserved)
    by (repeat constructor).
  assert (Hno : no_active_cart "bob@shop.test" (st_tables Runs.four_reserved))
    by (intros c [<-|[]] _; vm_compute; discriminate).
  assert (Hh : healthy Runs.four_reserved) by reflexivity.
  repeat (split; [assumption|]).
  exact (proj2 (removeItem_without_active_cart Runs.four_reserved (Runs.bob_request 1 2) 1 2
                  Hreq Hfk Hno) Hh).
Defined.

(* ================================================================== *)
(** * C8: removing more than the line holds                            *)
(* ================================================================== *)

Lemma stock_removeFromCart_writes (i amount : Z) (cart : Cart.t) (line : CartDetail.t)
      (db : DB) :
  stock i (removeFromCart_writes i amount cart line db)
  = option_map (fun st => st + amount) (stock i db).
Proof.
  unfold removeFromCart_writes.
  rewrite stock_add_to_total, stock_add_to_stock, Z.eqb_refl.
  now destruct (CartDetail.Amount line - amount =? 0).
Qed.

(** C8 -- Over-removal is rejected, not clamped.  The user's active cart has
    a line for the item.  A request to remove more than the line's amount
    leaves every table as it was, whatever the database does, and is answered
    InvalidRemoval with the line's current amount; a request to remove
    exactly the line's amount succeeds and deletes the line. *)
Theorem over_removal_rejected
        (s : Store) (req : CartRequest) (recordId amount : Z)
        (cart : Cart.t) (line : CartDetail.t) :
  request_ok req recordId amount ->
  hd_error (fst (Sql.select_active_cart (toLowerCase (params_email req)) (st_tables s)))
    = Some cart ->
  hd_error (lines_of (Cart.IdCart cart) recordId (st_tables s)) = Some line ->
  (CartDetail.Amount line < amount ->
   (forall r s', run (removeFromCart req) s = (r, s') -> st_tables s' = st_tables s) /\
   (healthy s ->
    run (removeFromCart req) s
    = (inr (mkResponse 400 (CannotRemoveMore (CartDetail.Amount line))), s)))
  /\
  (amount = CartDetail.Amount line -> healthy s ->
   forall st, stock recordId (st_tables s) = Some st ->
   exists s',
     run (removeFromCart req) s
     = (inr (mkResponse 200 (ItemRemovedFromCart (st + amount) 0)), s') /\
     CartDetails (st_tables s')
     = filter (fun d => negb (CartDetail.IdCartDetail d =? CartDetail.IdCartDetail line))
              (CartDetails (st_tables s)) /\
     stock recordId (st_tables s') = Some (st + amount)).
Proof.
  intros Hreq Hcart Hline. split.
  - intros Hover. split.
    + intros r s' Hrun.
      apply removeFromCart_tables in Hrun
        as [(H & _)
           |(rid & am & c & cd & db1 & Hrid & Ham & _ & Hres & Hl & Hle & _)];
        [assumption|exfalso].
      destruct Hreq as (Hrid' & Ham' & _).
      rewrite Hrid' in Hrid. rewrite Ham' in Ham. injection Hrid as <-. injection Ham as <-.
      destruct Hres as [[Hc ->]|(Hc & _)]; [|congruence].
      rewrite Hcart in Hc. injection Hc as <-.
      rewrite Hline in Hl. injection Hl as <-. lia.
    + intros Hh. destruct req as [em rid am us].
      apply request_ok_guards in Hreq as (-> & -> & u & -> & Hg1 & Hg2 & Hg3).
      destruct s as [db sq fl]. unfold healthy in Hh.
      cbn [st_tables st_seqs st_faults params_email] in *. subst fl.
      unfold lines_of in Hline. apply Z.ltb_lt in Hover.
      exec_goal. reflexivity.
  - intros -> Hh st Hst. destruct req as [em rid am us].
    apply request_ok_guards in Hreq as (-> & -> & u & -> & Hg1 & Hg2 & Hg3).
    destruct s as [db sq fl]. unfold healthy in Hh.
    cbn [st_tables st_seqs st_faults params_email] in *. subst fl.
    assert (Hs' : stock recordId
                    (removeFromCart_writes recordId (CartDetail.Amount line) cart line db)
                  = Some (st + CartDetail.Amount line))
      by (now rewrite stock_removeFromCart_writes, Hst).
    unfold removeFromCart_writes in Hs'. rewrite Z.sub_diag in Hs'. cbn [Z.eqb] in Hs'.
    pose proof Hs' as Hs''. apply stock_Some in Hs'' as (updated & Hu & Hsu).
    unfold lines_of in Hline.
    assert (Hnot : (CartDetail.Amount line <? CartDetail.Amount line) = false)
      by apply Z.ltb_irrefl.
    assert (Hz : (CartDetail.Amount line - CartDetail.Amount line =? 0) = true)
      by (rewrite Z.sub_diag; reflexivity).
    assert (Hz' : (0 <? CartDetail.Amount line - CartDetail.Amount line) = false)
      by (rewrite Z.sub_diag; reflexivity).
    eexists. split; [|split].
    + exec_goal. rewrite Hsu. reflexivity.
    + reflexivity.
    + exact Hs'.
Qed.

(** C8 at work: Alice's line holds 4 units; she asks to remove 5, then 4. *)
Lemma over_removal_rejected_witness :
  request_ok (Example.request 1 5) 1 5 /\
  healthy Runs.four_reserved /\
  run (removeFromCart (Example.request 1 5)) Runs.four_reserved
  = (inr (mkResponse 400 (CannotRemoveMore 4)), Runs.four_reserved).
Proof.
  assert (Hreq : request_ok (Example.request 1 5) 1 5) by (apply request_ok_alice; lia).
  assert (Hh : healthy Runs.four_reserved) by reflexivity.
  repeat (split; [assumption|]).
  refine (proj2 (proj1 (over_removal_rejected Runs.four_reserved (Example.request 1 5) 1 5
                          (Cart.mk 1 "alice@shop.test" 1200 true)
                          (CartDetail.mk 1 1 1 4 300) Hreq eq_refl eq_refl) _) Hh).
  cbn. lia.
Defined.

(* ================================================================== *)
(** * C4: order conversion                                             *)
(* ================================================================== *)

Ltac unfold_orders H :=
  unfold run, createOrderFromCart, getActiveCartByEmail, getCartDetailsByCartId,
    createOrder, removeAllDetailsFromCart, updateCartTotalPrice,
    respond, bind, try_catch, ret, throw,
    query_opt, query_in, query, nextval_IdOrder in H.

(** What an order line copies from a cart line. *)
Definition copied (orderId : Z) (d : CartDetail.t) : Z * Z * Z * Z :=
  (orderId, CartDetail.RecordId d, CartDetail.Amount d, CartDetail.Price d).

Definition order_line (od : OrderDetail.t) : Z * Z * Z * Z :=
  (OrderDetail.OrderId od, OrderDetail.RecordId od, OrderDetail.Amount od,
   OrderDetail.Price od).

Lemma createOrderDetail_created (orderId recordId amount price : Z) (w w' : World)
      (x : OrderDetail.t) :
  createOrderDetail orderId recordId amount price w = (inr x, w') ->
  tables w' = with_OrderDetails (OrderDetails (tables w) ++ [x]) (tables w) /\
  order_line x = (orderId, recordId, amount, price).
Proof.
  unfold createOrderDetail, bind, ret, throw, nextval_IdOrderDetail, query.
  destruct ((amount <? 1) || (price <? 1)); [discriminate|].
  cbn. destruct (hd None (faults w)); [discriminate|].
  intros [= <- <-]. now split.
Qed.

(** The loop that creates the order lines, when every creation succeeds. *)
Lemma order_details_created (orderId : Z) (details : list CartDetail.t)
      (w w' : World) (l : list unit) :
  Promise_all
    (map (fun detail =>
            createOrderDetail orderId (CartDetail.RecordId detail)
              (CartDetail.Amount detail) (CartDetail.Price detail) ;;
            ret tt)
         details) w = (inr l, w') ->
  exists newLines,
    tables w' = with_OrderDetails (OrderDetails (tables w) ++ newLines) (tables w) /\
    map order_line newLines = map (copied orderId) details.
Proof.
  revert w l. induction details as [|d details IH]; intros w l H.
  - cbn in H. injection H as <- <-. exists []. rewrite app_nil_r. now destruct (tables w).
  - cbn [map Promise_all] in H. unfold bind at 1 in H.
    destruct (createOrderDetail orderId (CartDetail.RecordId d) (CartDetail.Amount d)
                (CartDetail.Price d) w) as [[e|x] w1] eqn:E1; [discriminate|].
    cbn [ret] in H.
    match type of H with
    | context [Promise_all ?ps ?w1] => destruct (Promise_all ps w1) as [[e|l1] w2] eqn:E
    end; [discriminate|].
    injection H as <- <-.
    apply createOrderDetail_created in E1 as [Ht1 Hx].
    apply IH in E as (newLines & Ht & Hcopy).
    exists (x :: newLines). split.
    + rewrite Ht, Ht1. cbn. now rewrite <- app_assoc.
    + cbn. now rewrite Hcopy, Hx.
Qed.

Lemma select_cart_details_deleted (c : Z) (db : DB) :
  fst (Sql.select_cart_details c (snd (Sql.delete_cart_details c db))) = [].
Proof.
  unfold Sql.select_cart_details, Sql.delete_cart_details. cbn.
  induction (CartDetails db) as [|d l IH]; cbn; [reflexivity|].
  destruct (CartDetail.CartId d =? c) eqn:E; cbn; [exact IH|now rewrite E].
Qed.

Lemma find_map_stable {A} (p : A -> bool) (f : A -> A) (l : list A) :
  (forall x, p (f x) = p x) -> find p (map f l) = option_map f (find p l).
Proof.
  intros Hp. induction l as [|a l IH]; cbn; [reflexivity|].
  rewrite Hp. now destruct (p a).
Qed.

Lemma find_active_cart_after_total (e : string) (c b : Z) (db db' : DB) :
  Carts db' = map (fun x => if Cart.IdCart x =? c
                            then Cart.with_TotalPrice (Cart.TotalPrice x + b) x else x)
                  (Carts db) ->
  fst (Sql.find_active_cart e db')
  = option_map (fun x => if Cart.IdCart x =? c
                         then Cart.with_TotalPrice (Cart.TotalPrice x + b) x else x)
               (fst (Sql.find_active_cart e db)).
Proof.
  unfold Sql.find_active_cart. cbn. intros ->.
  apply find_map_stable. intros x. now destruct (Cart.IdCart x =? c).
Qed.

(** C4 -- Order conversion is a cart reset.  When createOrderFromCart
    succeeds, the user had an active cart with a positive total and at least
    one line; exactly one order has been added, with the cart's total; one
    order line per cart line has been added, copying the item, the amount and
    the price; the cart has no line left, its total is 0, its row is still
    there and enabled; and no row of the inventory has changed. *)
Theorem order_conversion (now : Z) (email : string) (s s' : Store) (r : Response) :
  run (createOrderFromCart now email) s = (inr r, s') ->
  status r = 201 ->
  exists cart order newLines,
    fst (Sql.find_active_cart (normalizeEmail email) (st_tables s)) = Some cart /\
    0 < Cart.TotalPrice cart /\
    (0 < List.length (fst (Sql.select_cart_details (Cart.IdCart cart) (st_tables s))))%nat /\
    r = mkResponse 201 (OrderCreated (Order.IdOrder order)) /\
    Orders (st_tables s') = Orders (st_tables s) ++ [order] /\
    Order.Total order = Cart.TotalPrice cart /\
    Order.UserEmail order = email /\
    Order.CartId order = Cart.IdCart cart /\
    OrderDetails (st_tables s') = OrderDetails (st_tables s) ++ newLines /\
    map order_line newLines
    = map (copied (Order.IdOrder order))
          (fst (Sql.select_cart_details (Cart.IdCart cart) (st_tables s))) /\
    fst (Sql.select_cart_details (Cart.IdCart cart) (st_tables s')) = [] /\
    fst (Sql.find_active_cart (normalizeEmail email) (st_tables s'))
    = Some (Cart.mk (Cart.IdCart cart) (Cart.UserEmail cart) 0 true) /\
    Records (st_tables s') = Records (st_tables s).
Proof.
  destruct s as [db sq fl]. intros H Hok.
  unfold_orders H. simp_in H.
  repeat (split_case H).
  all: try (result_of H; discriminate).
  all: try (injection H as <- <-; discriminate).
  match goal with
  | Hp : Promise_all _ _ = _ |- _ =>
      apply order_details_created in Hp as (newLines & Ht & Hcopy)
  end.
  cbn [tables with_tables with_faults with_seqs] in Ht.
  injection H as <- <-.
  match goal with
  | Hc : fst (Sql.find_active_cart _ db) = Some ?c,
    Hpk : fst (Sql.find_cart_by_pk _ _) = Some ?c2,
    Hpos : (Cart.TotalPrice ?c <=? 0) = false,
    Hlen : Nat.eqb _ 0 = false |- _ =>
      rename c into cart; rename c2 into byPk;
      apply Z.leb_gt in Hpos; apply Nat.eqb_neq in Hlen;
      apply find_some in Hpk as [_ Hid]; apply Z.eqb_eq in Hid;
      pose proof Hc as Hc'; unfold Sql.find_active_cart in Hc'; cbn [fst] in Hc';
      apply find_some in Hc' as [_ Hen]; apply andb_prop in Hen as [_ Hen]
  end.
  exists cart,
    (Order.mk (seq_IdOrder sq) now "Credit Card" (Cart.TotalPrice cart) email
              (Cart.IdCart cart)),
    newLines.
  cbn [st_tables Order.IdOrder Order.Total Order.UserEmail Order.CartId].
  rewrite Hid, Ht.
  repeat (split; [ solve [ assumption | reflexivity | lia ] | ]).
  split; [exact (select_cart_details_deleted _ _)|].
  split; [|reflexivity].
  rewrite (find_active_cart_after_total _ (Cart.IdCart cart) (- Cart.TotalPrice cart) db)
    by reflexivity.
  unfold normalizeEmail.
  match goal with Hc : fst (Sql.find_active_cart _ db) = Some cart |- _ => rewrite Hc end.
  cbn. rewrite Z.eqb_refl. unfold Cart.with_TotalPrice.
  rewrite Z.add_opp_diag_r, Hen. reflexivity.
Qed.

(** C4 at work: the conversion that ends the scenario of the specification. *)
Lemma order_conversion_witness :
  run (createOrderFromCart 0 "alice@shop.test") Runs.after_scenario
  = (inr (mkResponse 201 (OrderCreated 1)),
     snd (run (createOrderFromCart 0 "alice@shop.test") Runs.after_scenario)) /\
  status (mkResponse 201 (OrderCreated 1)) = 201 /\
  exists cart order newLines,
    fst (Sql.find_active_cart (normalizeEmail "alice@shop.test")
                              (st_tables Runs.after_scenario)) = Some cart /\
    0 < Cart.TotalPrice cart /\
    (0 < List.length (fst (Sql.select_cart_details (Cart.IdCart cart)
                                                   (st_tables Runs.after_scenario))))%nat /\
    mkResponse 201 (OrderCreated 1) = mkResponse 201 (OrderCreated (Order.IdOrder order)) /\
    Orders (st_tables (snd (run (createOrderFromCart 0 "alice@shop.test")
                                Runs.after_scenario)))
    = Orders (st_tables Runs.after_scenario) ++ [order] /\
    Order.Total order = Cart.TotalPrice cart /\
    Order.UserEmail order = "alice@shop.test" /\
    Order.CartId order = Cart.IdCart cart /\
    OrderDetails (st_tables (snd (run (createOrderFromCart 0 "alice@shop.test")
                                      Runs.after_scenario)))
    = OrderDetails (st_tables Runs.after_scenario) ++ newLines /\
    map order_line newLines
    = map (copied (Order.IdOrder order))
          (fst (Sql.select_cart_details (Cart.IdCart cart) (st_tables Runs.after_scenario))) /\
    fst (Sql.select_cart_details (Cart.IdCart cart)
           (st_tables (snd (run (createOrderFromCart 0 "alice@shop.test")
                                Runs.after_scenario)))) = [] /\
    fst (Sql.find_active_cart (normalizeEmail "alice@shop.test")
           (st_tables (snd (run (createOrderFromCart 0 "alice@shop.test")
                                Runs.after_scenario))))
    = Some (Cart.mk (Cart.IdCart cart) (Cart.UserEmail cart) 0 true) /\
    Records (st_tables (snd (run (createOrderFromCart 0 "alice@shop.test")
                                 Runs.after_scenario)))
    = Records (st_tables Runs.after_scenario).
Proof.
  assert (H : run (createOrderFromCart 0 "alice@shop.test") Runs.after_scenario
              = (inr (mkResponse 201 (OrderCreated 1)),
                 snd (run (createOrderFromCart 0 "alice@shop.test") Runs.after_scenario)))
    by (vm_compute; reflexivity).
  split; [exact H|]. split; [reflexivity|].
  exact (order_conversion 0 "alice@shop.test" Runs.after_scenario _ _ H eq_refl).
Defined.

(* ================================================================== *)
(** * C10: a failed read of the cart lines looks like an empty cart    *)
(* ================================================================== *)

Ltac unfold_services_goal :=
  unfold run, createOrderFromCart, disableCart, getActiveCartByEmail,
    getCartDetailsByCartId, createOrder, removeAllDetailsFromCart,
    updateCartTotalPrice, respond, bind, try_catch, ret, throw,
    query_opt, query_in, query, commit, rollback, sequelize_transaction,
    nextval_IdOrder.

Ltac exec_services := unfold_services_goal; simp_goal; repeat (follow_known; simp_goal).

(** [getCartDetailsByCartId] never throws; when its SELECT fails it answers
    the empty list. *)
Lemma getCartDetailsByCartId_swallows (cartId : Z) (w : World) :
  exists l w',
    getCartDetailsByCartId cartId w = (inr l, w') /\
    tables w' = tables w /\
    (forall k, hd None (faults w) = Some k -> l = []).
Proof.
  unfold getCartDetailsByCartId, try_catch, bind, ret, query.
  destruct (hd None (faults w)) as [k|] eqn:E; cbn.
  - do 2 eexists. split; [reflexivity|]. split; [reflexivity|]. reflexivity.
  - do 2 eexists. split; [reflexivity|]. split; [reflexivity|]. discriminate.
Qed.

(** C10 -- The read of the cart lines swallows every database error.
    [getCartDetailsByCartId] returns the empty list instead of failing.  So,
    for a user whose active cart has a positive total, when the read of the
    lines is the statement that fails: createOrderFromCart answers "Cart is
    empty" and writes nothing, whatever lines the cart has; and disableCart
    answers the cart's id, having disabled the cart and restored no stock,
    while the lines stay in the table. *)
Theorem failed_read_of_lines_is_an_empty_cart
        (shape : QueryResult) (now : Z) (email : string) (db : DB) (sq : Sequences)
        (k : DbErrorKind) (rest : list (option DbErrorKind)) (cart : Cart.t) :
  String.eqb email "" = false ->
  fst (Sql.find_active_cart (normalizeEmail email) db) = Some cart ->
  0 < Cart.TotalPrice cart ->
  (forall cartId w, exists l w',
        getCartDetailsByCartId cartId w = (inr l, w') /\
        (forall k', hd None (faults w) = Some k' -> l = []))
  /\
  run (createOrderFromCart now email) (mkStore db sq (None :: Some k :: rest))
  = (inr (mkResponse 400 CartIsEmpty), mkStore db sq rest)
  /\
  run (disableCart shape email) (mkStore db sq (None :: Some k :: None :: None :: rest))
  = (inr (Cart.IdCart cart),
     mkStore (snd (Sql.save_enabled (Cart.IdCart cart) false db)) sq rest)
  /\
  Records (snd (Sql.save_enabled (Cart.IdCart cart) false db)) = Records db
  /\
  CartDetails (snd (Sql.save_enabled (Cart.IdCart cart) false db)) = CartDetails db.
Proof.
  intros Hem Hcart Hpos. unfold normalizeEmail in Hcart.
  apply Z.leb_gt in Hpos.
  split; [|split; [|split; [|split]]].
  - intros cartId w.
    destruct (getCartDetailsByCartId_swallows cartId w) as (l & w' & H & _ & Hk).
    eauto.
  - exec_services. reflexivity.
  - exec_services. reflexivity.
  - reflexivity.
  - reflexivity.
Qed.

(** C10 at work: the read of the lines of Alice's cart (4 units of item 1)
    fails.  The conversion reports an empty cart; disableCart disables the
    cart and leaves the stock at 6. *)
Lemma failed_read_witness :
  fst (Sql.find_active_cart (normalizeEmail "alice@shop.test") (st_tables Runs.four_reserved))
  = Some (Cart.mk 1 "alice@shop.test" 1200 true) /\
  reserved 1 (st_tables Runs.four_reserved) = 4 /\
  run (createOrderFromCart 0 "alice@shop.test")
      (mkStore (st_tables Runs.four_reserved) (st_seqs Runs.four_reserved)
               [None; Some OtherDbError])
  = (inr (mkResponse 400 CartIsEmpty),
     mkStore (st_tables Runs.four_reserved) (st_seqs Runs.four_reserved) []) /\
  fst (run (disableCart RowArray "alice@shop.test") Runs.four_reserved_read_fails) = inr 1 /\
  stock 1 (st_tables (snd (run (disableCart RowArray "alice@shop.test")
                               Runs.four_reserved_read_fails))) = Some 6 /\
  reserved 1 (st_tables (snd (run (disableCart RowArray "alice@shop.test")
                                  Runs.four_reserved_read_fails))) = 4 /\
  map Cart.Enabled
      (Carts (st_tables (snd (run (disableCart RowArray "alice@shop.test")
                                  Runs.four_reserved_read_fails)))) = [false].
Proof.
  pose proof (failed_read_of_lines_is_an_empty_cart RowArray 0 "alice@shop.test"
                (st_tables Runs.four_reserved) (st_seqs Runs.four_reserved)
                OtherDbError [] (Cart.mk 1 "alice@shop.test" 1200 true)
                eq_refl eq_refl eq_refl) as (_ & Hconv & Hdis & _ & _).
  split; [reflexivity|]. split; [reflexivity|]. split; [exact Hconv|].
  change Runs.four_reserved_read_fails
    with (mkStore (st_tables Runs.four_reserved) (st_seqs Runs.four_reserved)
                  [None; Some OtherDbError; None; None]).
  rewrite Hdis. repeat split; vm_compute; reflexivity.
Defined.

(* ================================================================== *)
(** * C2: the total on a second add                                    *)
(* ================================================================== *)

(** C2 -- (the code departs from the claim.)  Item 1 is added at $3.00 (2
    units: total $6.00, line price $3.00), its catalogue price is changed to
    $4.50, and 3 more units are added.  The line keeps the price $3.00, but
    the total grows by 3 x $4.50, the catalogue price, not by 3 x $3.00, the
    price of the line.  Removing the 5 units then deducts 5 x $3.00 and
    leaves an empty cart with a total of $4.50. *)
Theorem second_add_charges_catalogue_price :
  map Cart.TotalPrice (Carts (st_tables Runs.first_add)) = [600] /\
  price 1 (st_tables Runs.repriced) = Some 450 /\
  map (fun d => (CartDetail.Amount d, CartDetail.Price d))
      (CartDetails (st_tables Runs.second_add)) = [(5, 300)] /\
  map Cart.TotalPrice (Carts (st_tables Runs.second_add)) = [600 + 3 * 450] /\
  (600 + 3 * 450 =? 600 + 3 * 300) = false /\
  CartDetails (st_tables Runs.all_removed) = [] /\
  map Cart.TotalPrice (Carts (st_tables Runs.all_removed)) = [450].
Proof. repeat split; vm_compute; reflexivity. Qed.

(* ================================================================== *)
(** * C3: order conversion is not atomic                               *)
(* ================================================================== *)

(** C3 -- (the code departs from the claim.)  [createOrderFromCart] opens no
    transaction: each write commits on its own.  With a cart of two lines,
    the second of price 0, the creation of the second order line is refused
    (its price is below the minimum) and the request fails with status 500;
    yet the order and its first line are in the tables, and the cart is as it
    was.  With a cart at full prices and the DELETE of the cart lines
    failing, the request fails with status 500 while the order and both
    order lines are in the tables, the cart still has its lines and its total
    is 0. *)
Theorem order_conversion_is_not_atomic :
  (fst (run (createOrderFromCart 0 "alice@shop.test") Runs.free_item_cart)
   = inr (mkResponse 500 FailedToCreateOrder) /\
   Orders (st_tables Runs.free_item_cart) = [] /\
   Orders (st_tables (snd (run (createOrderFromCart 0 "alice@shop.test")
                               Runs.free_item_cart)))
   = [Order.mk 1 0 "Credit Card" 2000 "alice@shop.test" 1] /\
   OrderDetails (st_tables (snd (run (createOrderFromCart 0 "alice@shop.test")
                                     Runs.free_item_cart)))
   = [OrderDetail.mk 1 1 1 2 1000] /\
   Carts (st_tables (snd (run (createOrderFromCart 0 "alice@shop.test")
                              Runs.free_item_cart)))
   = Carts (st_tables Runs.free_item_cart) /\
   CartDetails (st_tables (snd (run (createOrderFromCart 0 "alice@shop.test")
                                    Runs.free_item_cart)))
   = CartDetails (st_tables Runs.free_item_cart))
  /\
  (fst (run (createOrderFromCart 0 "alice@shop.test") Runs.paid_cart_delete_fails)
   = inr (mkResponse 500 FailedToCreateOrder) /\
   Orders (st_tables (snd (run (createOrderFromCart 0 "alice@shop.test")
                               Runs.paid_cart_delete_fails)))
   = [Order.mk 1 0 "Credit Card" 2500 "alice@shop.test" 1] /\
   map order_line
       (OrderDetails (st_tables (snd (run (createOrderFromCart 0 "alice@shop.test")
                                          Runs.paid_cart_delete_fails))))
   = [(1, 1, 2, 1000); (1, 2, 1, 500)] /\
   CartDetails (st_tables (snd (run (createOrderFromCart 0 "alice@shop.test")
                                    Runs.paid_cart_delete_fails)))
   = CartDetails (st_tables Runs.paid_cart) /\
   map Cart.TotalPrice
       (Carts (st_tables (snd (run (createOrderFromCart 0 "alice@shop.test")
                                   Runs.paid_cart_delete_fails))))
   = [0]).
Proof. split; repeat split; vm_compute; reflexivity. Qed.

(* ================================================================== *)
(** * C5: disabling a cart is not atomic                               *)
(* ================================================================== *)

Lemma nth_error_last {A} (l : list A) (x : A) :
  nth_error (l ++ [x]) (List.length l) = Some x.
Proof. induction l; cbn; auto. Qed.

Lemma set_nth_last {A} (l : list A) (x v : A) :
  set_nth (List.length l) v (l ++ [x]) = l ++ [v].
Proof. induction l as [|a l IH]; cbn; [reflexivity|]. now rewrite IH. Qed.

(** With the array of rows that a typed SELECT resolves to, [updateStock]
    takes the first row for the array and finds no record in it: it always
    throws, and it writes nothing. *)
Lemma updateStock_RowArray_throws (id amount : Z) (w : World) :
  exists e w', updateStock RowArray id amount w = (inl e, w') /\ tables w' = tables w.
Proof.
  unfold updateStock, sequelize_transaction, bind, try_catch, query_in, rollback,
    destructure_first, index_0, select_result, ret, throw.
  cbn [txs with_txs tables faults with_faults].
  rewrite !nth_error_last.
  destruct (hd None (faults w)) as [k|].
  - cbn [txs with_txs tables faults with_faults]. rewrite !set_nth_last, !nth_error_last.
    do 2 eexists. split; reflexivity.
  - cbn [txs with_txs tables faults with_faults fst snd Sql.select_record].
    destruct (filter _ (Records (tables w))) as [|r rows];
      cbn [first_row txs with_txs tables faults with_faults];
      rewrite ?set_nth_last, ?nth_error_last;
      cbn [txs with_txs tables faults with_faults];
      rewrite ?set_nth_last, ?nth_error_last;
      do 2 eexists; split; reflexivity.
Qed.




(* ================================================================== *)
(** * C6: enabling the carts of a user                                 *)
(* ================================================================== *)

(** C6 -- (the code departs from the claim.)  Bob has two carts, both
    disabled, so none is active.  [enableCart] enables every disabled cart of
    the user and answers the first one: afterwards Bob has two active
    carts. *)
Theorem enableCart_enables_every_disabled_cart :
  active_carts "bob@shop.test" (st_tables Runs.two_disabled_carts) = [] /\
  fst (run (enableCart "bob@shop.test") Runs.two_disabled_carts)
  = inr (Cart.mk 1 "bob@shop.test" 0 true) /\
  active_carts "bob@shop.test"
               (st_tables (snd (run (enableCart "bob@shop.test") Runs.two_disabled_carts)))
  = [Cart.mk 1 "bob@shop.test" 0 true; Cart.mk 2 "bob@shop.test" 0 true].
Proof. repeat split; vm_compute; reflexivity. Qed.

(* ================================================================== *)
(** * Further properties of the cart engine                          *)
(* ================================================================== *)

(** ** List facts *)

Lemma with_Carts_same (db : DB) : with_Carts (Carts db) db = db.
Proof. now destruct db. Qed.

Lemma map_id_in {A} (f : A -> A) (l : list A) :
  (forall x, In x l -> f x = x) -> map f l = l.
Proof.
  intros H. induction l as [|a l IH]; cbn; [reflexivity|].
  rewrite H by now left. rewrite IH; [reflexivity|]. intros x Hx. apply H. now right.
Qed.

Lemma filter_none_in {A} (p : A -> bool) (l : list A) :
  (forall x, In x l -> p x = false) -> filter p l = [].
Proof.
  intros H. induction l as [|a l IH]; cbn; [reflexivity|].
  rewrite H by now left. apply IH. intros x Hx. apply H. now right.
Qed.

Lemma with_CartDetails_same (db : DB) : with_CartDetails (CartDetails db) db = db.
Proof. now destruct db. Qed.

Lemma with_Records_same (db : DB) : with_Records (Records db) db = db.
Proof. now destruct db. Qed.

Lemma NoDup_map_inj_in {A B} (f : A -> B) (l : list A) (a b : A) :
  NoDup (map f l) -> In a l -> In b l -> f a = f b -> a = b.
Proof.
  induction l as [|x l IH]; cbn; [contradiction|].
  intros Hnd [->|Ha] [->|Hb] Hf; inversion Hnd; subst; auto.
  - exfalso. apply H1. rewrite Hf. now apply in_map.
  - exfalso. apply H1. rewrite <- Hf. now apply in_map.
Qed.

Lemma filter_none {A} (p : A -> bool) (l : list A) :
  Forall (fun x => p x = false) l -> filter p l = [].
Proof.
  induction 1 as [|a l Ha _ IH]; cbn; [reflexivity|]. now rewrite Ha.
Qed.

Lemma filter_all {A} (p : A -> bool) (l : list A) :
  Forall (fun x => p x = true) l -> filter p l = l.
Proof.
  induction 1 as [|a l Ha _ IH]; cbn; [reflexivity|]. now rewrite Ha, IH.
Qed.


(** ** Requests that are rejected before any write *)



(** Items that are not there.  With a valid, authorised request and a
    database that answers: adding an item that the catalogue does not have is
    answered 404 "Record not found"; removing an item of which the user's
    active cart has no line is answered 404 "Item not found in cart"; and the
    store is as it was. *)
Theorem missing_items_are_not_found
        (req : CartRequest) (recordId amount : Z) (s : Store) :
  request_ok req recordId amount -> healthy s ->
  (stock recordId (st_tables s) = None ->
   run (addToCart req) s = (inr (mkResponse 404 RecordNotFound), s))
  /\
  (forall cart,
      hd_error (fst (Sql.select_active_cart (toLowerCase (params_email req)) (st_tables s)))
      = Some cart ->
      lines_of (Cart.IdCart cart) recordId (st_tables s) = [] ->
      run (removeFromCart req) s = (inr (mkResponse 404 ItemNotFoundInCart), s)).
Proof.
  intros Hreq Hh. destruct req as [em rid am us].
  apply request_ok_guards in Hreq as (-> & -> & u & -> & Hg1 & Hg2 & Hg3).
  destruct s as [db sq fl]. unfold healthy in Hh.
  cbn [st_tables st_seqs st_faults params_email] in *. subst fl.
  split.
  - intros Hnone. unfold stock in Hnone.
    destruct (hd_error (fst (Sql.select_record recordId db))) as [r|] eqn:Hrec;
      [discriminate|].
    exec_goal. reflexivity.
  - intros cart Hcart Hnone. unfold lines_of in Hnone.
    assert (Hl : hd_error (fst (Sql.select_cart_detail (Cart.IdCart cart) recordId db)) = None)
      by now rewrite Hnone.
    exec_goal. reflexivity.
Qed.

Lemma missing_items_are_not_found_witness :
  run (addToCart (Example.request 5 1)) Runs.four_reserved
  = (inr (mkResponse 404 RecordNotFound), Runs.four_reserved) /\
  run (removeFromCart (Example.request 5 1)) Runs.four_reserved
  = (inr (mkResponse 404 ItemNotFoundInCart), Runs.four_reserved).
Proof.
  assert (Hreq : request_ok (Example.request 5 1) 5 1) by (apply request_ok_alice; lia).
  pose proof (missing_items_are_not_found (Example.request 5 1) 5 1 Runs.four_reserved
                Hreq eq_refl) as [H1 H2].
  split; [exact (H1 eq_refl)|].
  exact (H2 (Cart.mk 1 "alice@shop.test" 1200 true) eq_refl eq_refl).
Defined.


(** ** The handlers always answer *)





(** ** Requests that succeed *)






(** ** What sequences of cart requests keep *)


Definition request_of (op : CartOp) : CartRequest :=
  match op with
  | AddItem req | RemoveItem req => req
  end.

Lemma price_frame (j : Z) (db db' : DB) :
  Records db' = Records db -> price j db' = price j db.
Proof. unfold price, Sql.select_record. cbn. now intros ->. Qed.

Lemma price_add_to_stock (j i d : Z) (db : DB) :
  price j (snd (Sql.add_to_stock i d db)) = price j db.
Proof.
  unfold price, Sql.select_record, Sql.add_to_stock. cbn.
  induction (Records db) as [|r l IH]; cbn; [reflexivity|].
  destruct (RecordItem.IdRecord r =? i); cbn;
    destruct (RecordItem.IdRecord r =? j); cbn; auto.
Qed.

Lemma stock_add_to_stock_other (j i d : Z) (db : DB) :
  i <> j -> stock j (snd (Sql.add_to_stock i d db)) = stock j db.
Proof.
  intros Hne. unfold stock, Sql.select_record, Sql.add_to_stock. cbn.
  induction (Records db) as [|r l IH]; cbn; [reflexivity|].
  destruct (RecordItem.IdRecord r =? i) eqn:Ei; cbn;
    destruct (RecordItem.IdRecord r =? j) eqn:Ej; cbn; auto.
  apply Z.eqb_eq in Ei, Ej. congruence.
Qed.

Lemma addToCart_resolves_orders email newId db cart db1 :
  addToCart_resolves email newId db cart db1 ->
  Orders db1 = Orders db /\ OrderDetails db1 = OrderDetails db.
Proof.
  intros [[_ ->]|(_ & _ & ->)]; [now split|].
  unfold Sql.insert_cart_on_conflict.
  now destruct (find _ (Carts db)).
Qed.

Lemma removeFromCart_resolves_orders email newId db cart db1 :
  removeFromCart_resolves email newId db cart db1 ->
  Orders db1 = Orders db /\ OrderDetails db1 = OrderDetails db.
Proof.
  intros [[_ ->]|(_ & [[_ ->]|(_ & _ & ->)])]; now split.
Qed.

Lemma price_addToCart_writes (j recordId amount newId : Z) (rd : RecordItem.t)
      (cart : Cart.t) (db : DB) :
  price j (addToCart_writes recordId amount rd cart newId db) = price j db.
Proof.
  transitivity (price j (snd (Sql.add_to_stock recordId (- amount) db)));
    [|apply price_add_to_stock].
  unfold addToCart_writes. now destruct (hd_error _).
Qed.

Lemma price_removeFromCart_writes (j recordId amount : Z) (cart : Cart.t)
      (x : CartDetail.t) (db : DB) :
  price j (removeFromCart_writes recordId amount cart x db) = price j db.
Proof.
  transitivity (price j (snd (Sql.add_to_stock recordId amount db)));
    [|apply price_add_to_stock].
  unfold removeFromCart_writes. now destruct (_ =? 0).
Qed.

Lemma stock_addToCart_writes_other (j recordId amount newId : Z) (rd : RecordItem.t)
      (cart : Cart.t) (db : DB) :
  recordId <> j ->
  stock j (addToCart_writes recordId amount rd cart newId db) = stock j db.
Proof.
  intros Hne.
  transitivity (stock j (snd (Sql.add_to_stock recordId (- amount) db)));
    [|now apply stock_add_to_stock_other].
  unfold addToCart_writes. now destruct (hd_error _).
Qed.

Lemma stock_removeFromCart_writes_other (j recordId amount : Z) (cart : Cart.t)
      (x : CartDetail.t) (db : DB) :
  recordId <> j ->
  stock j (removeFromCart_writes recordId amount cart x db) = stock j db.
Proof.
  intros Hne.
  transitivity (stock j (snd (Sql.add_to_stock recordId amount db)));
    [|now apply stock_add_to_stock_other].
  unfold removeFromCart_writes. now destruct (_ =? 0).
Qed.

Lemma orders_addToCart_writes (recordId amount newId : Z) (rd : RecordItem.t)
      (cart : Cart.t) (db : DB) :
  Orders (addToCart_writes recordId amount rd cart newId db) = Orders db /\
  OrderDetails (addToCart_writes recordId amount rd cart newId db) = OrderDetails db.
Proof. unfold addToCart_writes. now destruct (hd_error _). Qed.

Lemma orders_removeFromCart_writes (recordId amount : Z) (cart : Cart.t)
      (x : CartDetail.t) (db : DB) :
  Orders (removeFromCart_writes recordId amount cart x db) = Orders db /\
  OrderDetails (removeFromCart_writes recordId amount cart x db) = OrderDetails db.
Proof. unfold removeFromCart_writes. now destruct (_ =? 0). Qed.

Lemma apply_op_frame (op : CartOp) (s : Store) (j : Z) :
  Orders (st_tables (apply_op s op)) = Orders (st_tables s) /\
  OrderDetails (st_tables (apply_op s op)) = OrderDetails (st_tables s) /\
  price j (st_tables (apply_op s op)) = price j (st_tables s) /\
  (body_recordId (request_of op) <> Some j ->
   stock j (st_tables (apply_op s op)) = stock j (st_tables s)).
Proof.
  unfold apply_op. destruct (run (handler op) s) as [r s'] eqn:E. cbn [snd].
  destruct op as [req|req]; cbn [handler request_of] in *.
  - apply addToCart_tables in E
      as [(-> & _)
         |(recordId & amount & rd & cart & db1 & Hrid & _ & _ & _ & _ & Hres & -> & _)];
      [auto|].
    destruct (addToCart_resolves_frame _ _ _ _ _ Hres) as [HR _].
    destruct (addToCart_resolves_orders _ _ _ _ _ Hres) as [HO HD].
    destruct (orders_addToCart_writes recordId amount (seq_IdCartDetail (st_seqs s))
                rd cart db1) as [-> ->].
    rewrite price_addToCart_writes, (price_frame j _ _ HR).
    repeat (split; [assumption || reflexivity|]).
    intros Hne. rewrite stock_addToCart_writes_other by congruence.
    now apply stock_frame.
  - apply removeFromCart_tables in E
      as [(-> & _)
         |(recordId & amount & cart & x & db1 & Hrid & _ & _ & Hres & _ & _ & -> & _)];
      [auto|].
    destruct (removeFromCart_resolves_frame _ _ _ _ _ Hres) as [HR _].
    destruct (removeFromCart_resolves_orders _ _ _ _ _ Hres) as [HO HD].
    destruct (orders_removeFromCart_writes recordId amount cart x db1) as [-> ->].
    rewrite price_removeFromCart_writes, (price_frame j _ _ HR).
    repeat (split; [assumption || reflexivity|]).
    intros Hne. rewrite stock_removeFromCart_writes_other by congruence.
    now apply stock_frame.
Qed.

(** What cart requests never touch.  After any sequence of addToCart and
    removeFromCart requests, whatever their outcome: no order and no order
    line has been added, changed or removed; the catalogue price of every
    item is what it was; and the stock of an item that no request of the
    sequence names is what it was. *)
Theorem cart_requests_frame (ops : list CartOp) (s : Store) (j : Z) :
  Orders (st_tables (apply_ops ops s)) = Orders (st_tables s) /\
  OrderDetails (st_tables (apply_ops ops s)) = OrderDetails (st_tables s) /\
  price j (st_tables (apply_ops ops s)) = price j (st_tables s) /\
  (Forall (fun op => body_recordId (request_of op) <> Some j) ops ->
   stock j (st_tables (apply_ops ops s)) = stock j (st_tables s)).
Proof.
  revert s. induction ops as [|op ops IH]; intros s; [cbn; auto|].
  change (apply_ops (op :: ops) s) with (apply_ops ops (apply_op s op)).
  destruct (IH (apply_op s op)) as (H1 & H2 & H3 & H4).
  destruct (apply_op_frame op s j) as (K1 & K2 & K3 & K4).
  split; [congruence|]. split; [congruence|]. split; [congruence|].
  intros Hall. inversion Hall; subst. rewrite H4, K4; auto.
Qed.

(** The key of a cart line: its cart and its item. *)
Definition line_key (d : CartDetail.t) : Z * Z := (CartDetail.CartId d, CartDetail.RecordId d).

(** Every line holds at least one unit, and no two lines are for the same
    item in the same cart. *)
Definition lines_merged (db : DB) : Prop :=
  Forall (fun d => 0 < CartDetail.Amount d) (CartDetails db) /\
  NoDup (map line_key (CartDetails db)).

Lemma lines_merged_frame (db db' : DB) :
  CartDetails db' = CartDetails db -> lines_merged db -> lines_merged db'.
Proof. unfold lines_merged. now intros ->. Qed.

Section Lines.

Variable l : list CartDetail.t.
Hypothesis Hpos : Forall (fun d => 0 < CartDetail.Amount d) l.
Hypothesis Hkeys : NoDup (map line_key l).




End Lines.




(** The total a cart row stores, and the value of the lines of a cart. *)
Definition total_of (cartId : Z) (db : DB) : option Z :=
  option_map Cart.TotalPrice (fst (Sql.find_cart_by_pk cartId db)).



Section Values.

Variable c : Z.





End Values.



Lemma total_of_add_to_total (c k b : Z) (db : DB) :
  total_of c (snd (Sql.add_to_total k b db))
  = option_map (fun t => if c =? k then t + b else t) (total_of c db).
Proof.
  unfold total_of, Sql.find_cart_by_pk, Sql.add_to_total. cbn.
  rewrite find_map_stable by (intros x; now destruct (Cart.IdCart x =? k)).
  destruct (find _ (Carts db)) as [x|] eqn:E; cbn; [|reflexivity].
  apply find_some in E as [_ E]. apply Z.eqb_eq in E. subst c.
  now destruct (Cart.IdCart x =? k).
Qed.














(** ** services/cartService.ts *)


(** The carts [enableCart] takes for the user's disabled carts: the e-mail
    address is compared as it is given. *)
Definition disabled_cart_of (email : string) (c : Cart.t) : bool :=
  String.eqb (Cart.UserEmail c) email && negb (Cart.Enabled c).

(** [enableCart], when the database answers.  Without a disabled cart stored
    under exactly the given address, it throws and changes nothing.
    Otherwise it returns the first such cart, enabled, and afterwards every
    cart stored under that address is enabled, the other carts and tables
    being as they were. *)
Theorem enableCart_outcomes (email : string) (s : Store) :
  hd None (st_faults s) = None ->
  (filter (disabled_cart_of email) (Carts (st_tables s)) = [] ->
   run (enableCart email) s
   = (inl (Error "No disabled cart found for this user to enable"),
      mkStore (st_tables s) (st_seqs s) (tl (st_faults s))))
  /\
  (forall cart rest,
      filter (disabled_cart_of email) (Carts (st_tables s)) = cart :: rest ->
      run (enableCart email) s
      = (inr (Cart.with_Enabled true cart),
         mkStore (with_Carts
                    (map (fun c => if String.eqb (Cart.UserEmail c) email
                                   then Cart.with_Enabled true c else c)
                         (Carts (st_tables s)))
                    (st_tables s))
                 (st_seqs s) (tl (st_faults s)))).
Proof.
  destruct s as [db sq fl]. cbn [st_tables st_seqs st_faults]. intros Hf.
  assert (Hmap : forall l,
             map (fun c => if disabled_cart_of email c then Cart.with_Enabled true c else c) l
             = map (fun c => if String.eqb (Cart.UserEmail c) email
                             then Cart.with_Enabled true c else c) l).
  { intros l. apply map_ext. intros c. unfold disabled_cart_of.
    destruct (String.eqb (Cart.UserEmail c) email); cbn; [|reflexivity].
    destruct c as [i e t []]; reflexivity. }
  split.
  - intros Hnone.
    unfold run, enableCart, bind, query, throw.
    cbn [st_tables st_seqs st_faults tables seqs faults]. rewrite Hf.
    unfold Sql.enable_disabled_carts. fold (disabled_cart_of email).
    cbn [fst snd]. rewrite Hnone.
    cbn [map tables seqs faults with_tables with_faults]. rewrite Hmap.
    rewrite map_id_in, with_Carts_same; [reflexivity|].
    intros c Hc. destruct (String.eqb (Cart.UserEmail c) email) eqn:E; [|reflexivity].
    assert (Hd : disabled_cart_of email c = false).
    { destruct (disabled_cart_of email c) eqn:D; [|reflexivity].
      assert (In c (filter (disabled_cart_of email) (Carts db)))
        by (apply filter_In; now split).
      rewrite Hnone in H. contradiction. }
    unfold disabled_cart_of in Hd. rewrite E in Hd. cbn in Hd.
    destruct c as [i e t []]; [reflexivity|discriminate].
  - intros cart rest Hsome.
    unfold run, enableCart, bind, query, ret.
    cbn [st_tables st_seqs st_faults tables seqs faults]. rewrite Hf.
    unfold Sql.enable_disabled_carts. fold (disabled_cart_of email).
    cbn [fst snd]. rewrite Hsome.
    cbn [map tables seqs faults with_tables with_faults]. now rewrite Hmap.
Qed.

(** Bob's two disabled carts: both are enabled and the first is answered;
    for Alice, who has none, the call fails and changes nothing. *)
Lemma enableCart_outcomes_witness :
  run (enableCart "alice@shop.test") Runs.two_disabled_carts
  = (inl (Error "No disabled cart found for this user to enable"),
     Runs.two_disabled_carts) /\
  run (enableCart "bob@shop.test") Runs.two_disabled_carts
  = (inr (Cart.mk 1 "bob@shop.test" 0 true),
     mkStore (mkDB [] [Cart.mk 1 "bob@shop.test" 0 true; Cart.mk 2 "bob@shop.test" 0 true]
                   [] [] [])
             (mkSeq 3 1 1 1) []).
Proof.
  split.
  - exact (proj1 (enableCart_outcomes "alice@shop.test" Runs.two_disabled_carts eq_refl)
                 eq_refl).
  - exact (proj2 (enableCart_outcomes "bob@shop.test" Runs.two_disabled_carts eq_refl)
                 (Cart.mk 1 "bob@shop.test" 0 false) [Cart.mk 2 "bob@shop.test" 0 false]
                 eq_refl).
Defined.

(** With the array of rows, [updateStock] makes one round trip, fails, and
    leaves its transaction rolled back. *)
Lemma updateStock_RowArray_world (id amount : Z) (w : World) :
  exists e,
    updateStock RowArray id amount w
    = (inl e, with_txs (txs w ++ [TxFinished]) (with_faults (tl (faults w)) w)).
Proof.
  unfold updateStock, sequelize_transaction, bind, try_catch, query_in, rollback,
    destructure_first, index_0, select_result, ret, throw.
  cbn [txs with_txs tables faults with_faults].
  rewrite !nth_error_last.
  destruct (hd None (faults w)) as [k|].
  - cbn [txs with_txs tables faults with_faults]. rewrite !set_nth_last, !nth_error_last.
    rewrite ?set_nth_last. eexists. reflexivity.
  - cbn [txs with_txs tables faults with_faults fst snd Sql.select_record].
    destruct (filter _ (Records (tables w))) as [|r rows];
      cbn [first_row txs with_txs tables faults with_faults];
      rewrite ?set_nth_last, ?nth_error_last;
      cbn [txs with_txs tables faults with_faults];
      rewrite ?set_nth_last, ?nth_error_last;
      cbn [txs with_txs tables faults with_faults];
      rewrite ?set_nth_last;
      eexists; reflexivity.
Qed.

Ltac cbn_services :=
  cbn -[Z.add Z.mul Z.sub Z.leb Z.ltb Z.eqb Z.opp String.eqb toLowerCase trim
        normalizeEmail LOWER TRIM updateStock
        Sql.select_record Sql.add_to_stock Sql.set_stock Sql.set_price
        Sql.select_active_cart Sql.insert_cart_on_conflict Sql.find_active_cart
        Sql.create_cart Sql.find_cart_by_pk Sql.add_to_total Sql.save_enabled
        Sql.enable_disabled_carts Sql.select_cart_detail Sql.select_cart_details
        Sql.set_amount Sql.insert_cart_detail Sql.delete_cart_detail
        Sql.delete_cart_details Sql.insert_order Sql.insert_order_detail].

Ltac simp_services := cbn_services; autorewrite with sql_reads; cbn_services.

Ltac unfold_disable :=
  unfold run, disableCart, getActiveCartByEmail, getCartDetailsByCartId,
    bind, try_catch, ret, throw, query_opt, query_in, query, commit, rollback,
    sequelize_transaction.

(** [disableCart] when the database answers every statement.  A user
    without an active cart gets an error and nothing changes.  An active cart
    without lines is disabled, and nothing else changes.  An active cart with
    at least one line cannot be disabled: the restoration of the stock of
    its first line fails (the SELECT of [updateStock] resolves to the array
    of rows), so the call throws and leaves every table as it was. *)
Theorem disableCart_on_a_healthy_database (shape : QueryResult) (email : string) (s : Store) :
  String.eqb email "" = false -> healthy s ->
  (fst (Sql.find_active_cart (normalizeEmail email) (st_tables s)) = None ->
   run (disableCart shape email) s
   = (inl (Error "No active cart found for this user to disable"), s))
  /\
  (forall cart,
      fst (Sql.find_active_cart (normalizeEmail email) (st_tables s)) = Some cart ->
      fst (Sql.select_cart_details (Cart.IdCart cart) (st_tables s)) = [] ->
      run (disableCart shape email) s
      = (inr (Cart.IdCart cart),
         mkStore (snd (Sql.save_enabled (Cart.IdCart cart) false (st_tables s)))
                 (st_seqs s) []))
  /\
  (forall cart line lines,
      fst (Sql.find_active_cart (normalizeEmail email) (st_tables s)) = Some cart ->
      fst (Sql.select_cart_details (Cart.IdCart cart) (st_tables s)) = line :: lines ->
      exists e, run (disableCart RowArray email) s = (inl e, s)).
Proof.
  destruct s as [db sq fl]. unfold healthy, normalizeEmail.
  cbn [st_tables st_seqs st_faults]. intros Hem ->.
  split; [|split].
  - intros Hnone. unfold_disable. simp_goal. rewrite Hem. simp_goal.
    rewrite Hnone. reflexivity.
  - intros cart Hcart Hlines. unfold_disable. simp_goal. rewrite Hem. simp_goal.
    rewrite Hcart. simp_goal. rewrite Hlines. reflexivity.
  - intros cart line lines Hcart Hlines.
    unfold_disable. simp_services. rewrite Hem. simp_services.
    rewrite Hcart. simp_services. rewrite Hlines. simp_services. unfold bind. simp_services.
    match goal with
    | |- context [updateStock RowArray ?i ?a ?w] =>
        destruct (updateStock_RowArray_world i a w) as [e He]; rewrite He
    end.
    exists e. reflexivity.
Qed.

(** Bob has no cart; Alice's cart in [Example.store] has no line; in
    [Runs.four_reserved] it has one. *)
Lemma disableCart_on_a_healthy_database_witness :
  run (disableCart RowArray "bob@shop.test") Example.store
  = (inl (Error "No active cart found for this user to disable"), Example.store) /\
  run (disableCart RowArray "alice@shop.test") Example.store
  = (inr 1, mkStore (mkDB [RecordItem.mk 1 300 10]
                          [Cart.mk 1 "alice@shop.test" 0 false] [] [] [])
                    (mkSeq 2 1 1 1) []) /\
  exists e, run (disableCart RowArray "alice@shop.test") Runs.four_reserved
            = (inl e, Runs.four_reserved).
Proof.
  split; [|split].
  - exact (proj1 (disableCart_on_a_healthy_database RowArray "bob@shop.test" Example.store
                    eq_refl eq_refl) eq_refl).
  - exact (proj1 (proj2 (disableCart_on_a_healthy_database RowArray "alice@shop.test"
                           Example.store eq_refl eq_refl))
                 (Cart.mk 1 "alice@shop.test" 0 true) eq_refl eq_refl).
  - exact (proj2 (proj2 (disableCart_on_a_healthy_database RowArray "alice@shop.test"
                           Runs.four_reserved eq_refl eq_refl))
                 (Cart.mk 1 "alice@shop.test" 1200 true) (CartDetail.mk 1 1 1 4 300) []
                 eq_refl eq_refl).
Defined.

Section DisableEnable.

Variables (email : string) (cart : Cart.t) (l : list Cart.t).
Hypothesis Hnd : NoDup (map Cart.IdCart l).
Hypothesis Hin : In cart l.
Hypothesis Hmail : Cart.UserEmail cart = email.
Hypothesis Hen : Cart.Enabled cart = true.
Hypothesis Hnone : filter (disabled_cart_of email) l = [].

Let disable (c : Cart.t) : Cart.t :=
  if Cart.IdCart c =? Cart.IdCart cart then Cart.with_Enabled false c else c.

Lemma disabled_after_disable (c : Cart.t) :
  In c l -> disabled_cart_of email (disable c) = (Cart.IdCart c =? Cart.IdCart cart).
Proof.
  intros Hc. unfold disable.
  destruct (Z.eqb_spec (Cart.IdCart c) (Cart.IdCart cart)) as [E|E].
  - assert (c = cart) by (eapply NoDup_map_inj_in; eauto). subst c.
    unfold disabled_cart_of. cbn. now rewrite Hmail, String.eqb_refl.
  - destruct (disabled_cart_of email c) eqn:D; [|reflexivity].
    assert (In c (filter (disabled_cart_of email) l)) by (apply filter_In; now split).
    rewrite Hnone in H. contradiction.
Qed.

Lemma only_cart_has_its_id : filter (fun c => Cart.IdCart c =? Cart.IdCart cart) l = [cart].
Proof.
  clear Hnone Hmail Hen disable.
  induction l as [|x l' IH]; [contradiction|].
  cbn in Hnd. inversion Hnd as [|? ? Hx Hnd']; subst. cbn.
  destruct Hin as [->|Hin'].
  - rewrite Z.eqb_refl. f_equal. apply filter_none_in. intros c Hc.
    apply Z.eqb_neq. intros E. apply Hx. rewrite <- E. now apply in_map.
  - destruct (Z.eqb_spec (Cart.IdCart x) (Cart.IdCart cart)) as [E|E].
    + exfalso. apply Hx. rewrite E. now apply in_map.
    + now apply IH.
Qed.

Lemma filter_disabled_after_disable :
  filter (disabled_cart_of email) (map disable l) = [Cart.with_Enabled false cart].
Proof.
  assert (H : forall l0, (forall c, In c l0 -> In c l) ->
                filter (disabled_cart_of email) (map disable l0)
                = map disable (filter (fun c => Cart.IdCart c =? Cart.IdCart cart) l0)).
  { induction l0 as [|x l0 IH]; intros Hsub; cbn; [reflexivity|].
    rewrite disabled_after_disable by (apply Hsub; now left).
    destruct (Cart.IdCart x =? Cart.IdCart cart); cbn;
      rewrite IH by (intros c Hc; apply Hsub; now right); reflexivity. }
  rewrite H by auto. rewrite only_cart_has_its_id. cbn. unfold disable.
  now rewrite Z.eqb_refl.
Qed.

Lemma enable_after_disable :
  map (fun c => if String.eqb (Cart.UserEmail c) email then Cart.with_Enabled true c else c)
      (map disable l) = l.
Proof.
  rewrite map_map. apply map_id_in. intros c Hc. unfold disable.
  destruct (Z.eqb_spec (Cart.IdCart c) (Cart.IdCart cart)) as [E|E].
  - assert (c = cart) by (eapply NoDup_map_inj_in; eauto). subst c.
    cbn. rewrite Hmail, String.eqb_refl. destruct cart as [i e t b]. cbn in *. now subst.
  - destruct (String.eqb (Cart.UserEmail c) email) eqn:Em; [|reflexivity].
    destruct (Cart.Enabled c) eqn:En; [destruct c; cbn in *; now subst|].
    assert (In c (filter (disabled_cart_of email) l)).
    { apply filter_In. split; [assumption|]. unfold disabled_cart_of. now rewrite Em, En. }
    rewrite Hnone in H. contradiction.
Qed.

End DisableEnable.

(** Disabling and enabling again.  The address is given as it is stored (in
    normal form), its active cart has no line, no cart of that address is
    disabled, and cart identifiers are unique.  When the database answers
    every statement, [disableCart] followed by [enableCart] answers the
    cart's id, then the cart, and leaves the store as it was. *)
Theorem disable_then_enable_restores
        (shape : QueryResult) (email : string) (s : Store) (cart : Cart.t) :
  String.eqb email "" = false -> healthy s ->
  normalizeEmail email = email ->
  NoDup (map Cart.IdCart (Carts (st_tables s))) ->
  fst (Sql.find_active_cart email (st_tables s)) = Some cart ->
  fst (Sql.select_cart_details (Cart.IdCart cart) (st_tables s)) = [] ->
  filter (disabled_cart_of email) (Carts (st_tables s)) = [] ->
  exists s1,
    run (disableCart shape email) s = (inr (Cart.IdCart cart), s1) /\
    run (enableCart email) s1 = (inr cart, s).
Proof.
  destruct s as [db sq fl]. unfold healthy, normalizeEmail.
  cbn [st_tables st_seqs st_faults]. intros Hem -> Hnorm Hnd Hcart Hlines Hnone.
  pose proof Hcart as Hc. unfold Sql.find_active_cart in Hc. cbn [fst] in Hc.
  apply find_some in Hc as [Hin Hp]. apply andb_prop in Hp as [Hmail Hen].
  apply String.eqb_eq in Hmail.
  exists (mkStore (snd (Sql.save_enabled (Cart.IdCart cart) false db)) sq []). split.
  - unfold_disable. simp_goal. rewrite Hem. simp_goal. rewrite Hnorm, Hcart. simp_goal.
    rewrite Hlines. reflexivity.
  - unfold run, enableCart, bind, query, ret.
    cbn [st_tables st_seqs st_faults tables seqs faults hd tl].
    unfold Sql.enable_disabled_carts, Sql.save_enabled. fold (disabled_cart_of email).
    cbn [fst snd Carts with_Carts].
    rewrite (filter_disabled_after_disable email cart (Carts db)) by assumption.
    cbn [map tables seqs faults with_tables with_faults].
    assert (Hmap : forall l,
               map (fun c => if disabled_cart_of email c then Cart.with_Enabled true c else c) l
               = map (fun c => if String.eqb (Cart.UserEmail c) email
                               then Cart.with_Enabled true c else c) l).
    { intros l. apply map_ext. intros c. unfold disabled_cart_of.
      destruct (String.eqb (Cart.UserEmail c) email); cbn; [|reflexivity].
      destruct c as [i e t []]; reflexivity. }
    rewrite Hmap, (enable_after_disable email cart (Carts db)) by assumption.
    destruct db. destruct cart as [i e t b]. cbn in *. now subst.
Qed.

Lemma disable_then_enable_restores_witness :
  exists s1,
    run (disableCart RowArray "alice@shop.test") Example.store = (inr 1, s1) /\
    run (enableCart "alice@shop.test") s1
    = (inr (Cart.mk 1 "alice@shop.test" 0 true), Example.store).
Proof.
  refine (disable_then_enable_restores RowArray "alice@shop.test" Example.store
            (Cart.mk 1 "alice@shop.test" 0 true) eq_refl eq_refl eq_refl _
            eq_refl eq_refl eq_refl).
  repeat constructor. intros [].
Defined.



Ltac cbn_services_in H :=
  cbn -[Z.add Z.mul Z.sub Z.leb Z.ltb Z.eqb Z.opp String.eqb toLowerCase trim
        normalizeEmail LOWER TRIM updateStock
        Sql.select_record Sql.add_to_stock Sql.set_stock Sql.set_price
        Sql.select_active_cart Sql.insert_cart_on_conflict Sql.find_active_cart
        Sql.create_cart Sql.find_cart_by_pk Sql.add_to_total Sql.save_enabled
        Sql.enable_disabled_carts Sql.select_cart_detail Sql.select_cart_details
        Sql.set_amount Sql.insert_cart_detail Sql.delete_cart_detail
        Sql.delete_cart_details Sql.insert_order Sql.insert_order_detail] in H.

Ltac simp_services_in H :=
  cbn_services_in H; autorewrite with sql_reads in H; cbn_services_in H.

Ltac split_service_case H :=
  match type of H with
  | context [match ?x with _ => _ end] =>
      let y := innermost_scrutinee x in
      destruct y eqn:?; simp_services_in H
  end.

(** [disableCart] never restores any stock.  Whatever the database does, a
    call either leaves every table as it was, or answers the id of the
    user's active cart and has changed nothing but the [Enabled] flag of that
    cart: no row of "Records" is ever changed and no cart line is removed. *)
Theorem disableCart_never_restores_stock
        (email : string) (s s' : Store) (r : Exn + Z) :
  run (disableCart RowArray email) s = (r, s') ->
  Records (st_tables s') = Records (st_tables s) /\
  CartDetails (st_tables s') = CartDetails (st_tables s) /\
  (st_tables s' = st_tables s /\ (forall id, r = inr id -> False)
   \/
   exists cart,
     fst (Sql.find_active_cart (normalizeEmail email) (st_tables s)) = Some cart /\
     r = inr (Cart.IdCart cart) /\
     st_tables s' = snd (Sql.save_enabled (Cart.IdCart cart) false (st_tables s))).
Proof.
  destruct s as [db sq fl]. intros H.
  unfold normalizeEmail.
  unfold run, disableCart, getActiveCartByEmail, getCartDetailsByCartId,
    try_catch, ret, throw, query_opt, query_in, query, commit, rollback,
    sequelize_transaction in H.
  unfold bind in H. simp_services_in H.
  destruct (String.eqb email ""); simp_services_in H.
  { result_of H. cbn. repeat split; auto. left. split; [reflexivity|discriminate]. }
  destruct (hd None fl) as [k|]; simp_services_in H.
  { result_of H. cbn. repeat split; auto. left. split; [reflexivity|discriminate]. }
  destruct (fst (Sql.find_active_cart (toLowerCase (trim email)) db)) as [cart|] eqn:Hc;
    simp_services_in H.
  2:{ result_of H. cbn. repeat split; auto. left. split; [reflexivity|discriminate]. }
  assert (Hlines : forall lines w0 r0 w1,
             tables w0 = db ->
             for_each lines
               (fun detail w =>
                  let (s1, w'0) := updateStock RowArray (CartDetail.RecordId detail)
                                     (CartDetail.Amount detail) w in
                  match s1 with inl x => (inl x, w'0) | inr _ => (inr tt, w'0) end)
               w0 = (r0, w1) ->
             match lines with
             | [] => r0 = inr tt /\ w1 = w0
             | _ :: _ => exists e, r0 = inl e /\
                                   w1 = with_txs (txs w0 ++ [TxFinished])
                                          (with_faults (tl (faults w0)) w0)
             end).
  { intros [|d lines] w0 r0 w1 Hw0 Hf; cbn [for_each] in Hf.
    - now injection Hf as <- <-.
    - unfold bind in Hf. cbn beta in Hf.
      destruct (updateStock_RowArray_world (CartDetail.RecordId d) (CartDetail.Amount d) w0)
        as [e He].
      rewrite He in Hf. injection Hf as <- <-. now exists e. }
  destruct (hd None (tl fl)) as [k|]; simp_services_in H.
  - (* the read of the lines fails: the cart is taken for empty *)
    repeat (split_service_case H).
    all: result_of H; cbn [st_tables]; (split; [reflexivity|]); (split; [reflexivity|]).
    all: try (left; split; [reflexivity|discriminate]).
    all: right; exists cart; (split; [exact Hc|split; reflexivity]).
  - match type of H with
    | context [for_each ?l ?b ?w0] =>
        destruct (for_each l b w0) as [r0 w1] eqn:Hf;
        apply Hlines in Hf; [|reflexivity]
    end.
    destruct (fst (Sql.select_cart_details (Cart.IdCart cart) db)) as [|d lines].
    + destruct Hf as [-> ->]. simp_services_in H.
      repeat (split_service_case H).
      all: result_of H; cbn [st_tables]; (split; [reflexivity|]); (split; [reflexivity|]).
      all: try (left; split; [reflexivity|discriminate]).
      all: right; exists cart; (split; [exact Hc|split; reflexivity]).
    + destruct Hf as (e & -> & ->). simp_services_in H.
      result_of H. cbn. repeat split; auto. left. split; [reflexivity|discriminate].
Qed.

(** Alice's cart holds 4 units of item 1, and the read of its lines fails:
    the cart is disabled, and the inventory and the lines are as they were. *)
Lemma disableCart_never_restores_stock_witness :
  Records (st_tables (snd (run (disableCart RowArray "alice@shop.test")
                               Runs.four_reserved_read_fails)))
  = Records (st_tables Runs.four_reserved_read_fails) /\
  CartDetails (st_tables (snd (run (disableCart RowArray "alice@shop.test")
                                   Runs.four_reserved_read_fails)))
  = CartDetails (st_tables Runs.four_reserved_read_fails).
Proof.
  pose proof (disableCart_never_restores_stock "alice@shop.test"
                Runs.four_reserved_read_fails _ _ (surjective_pairing _)) as (H1 & H2 & _).
  split; assumption.
Defined.

Section SetStock.

Variables (id n : Z) (db : DB).





End SetStock.






(** [updateCartTotalPrice] when the database answers.  For an id that no
    cart has, it throws "Cart not found" and changes nothing.  Otherwise the
    total of that cart grows by the amount given, which may be negative; the
    totals of the other carts, the cart lines and the inventory are as they
    were. *)
Theorem updateCartTotalPrice_outcomes (cartId priceToAdd : Z) (s : Store) :
  healthy s ->
  (total_of cartId (st_tables s) = None ->
   run (updateCartTotalPrice cartId priceToAdd) s = (inl (Error "Cart not found"), s))
  /\
  (forall t, total_of cartId (st_tables s) = Some t ->
     exists s',
       run (updateCartTotalPrice cartId priceToAdd) s = (inr tt, s') /\
       total_of cartId (st_tables s') = Some (t + priceToAdd) /\
       (forall c, c <> cartId -> total_of c (st_tables s') = total_of c (st_tables s)) /\
       CartDetails (st_tables s') = CartDetails (st_tables s) /\
       Records (st_tables s') = Records (st_tables s)).
Proof.
  destruct s as [db sq fl]. unfold healthy. cbn [st_tables st_seqs st_faults]. intros ->.
  split.
  - intros Hnone. unfold total_of in Hnone.
    destruct (fst (Sql.find_cart_by_pk cartId db)) as [c|] eqn:E; [discriminate|].
    unfold run, updateCartTotalPrice, try_catch, bind, throw, query.
    cbn [st_tables st_seqs st_faults tables seqs faults hd tl with_tables with_faults].
    rewrite E. reflexivity.
  - intros t Ht. pose proof Ht as Ht0. unfold total_of in Ht.
    destruct (fst (Sql.find_cart_by_pk cartId db)) as [c|] eqn:E; [|discriminate].
    injection Ht as <-.
    pose proof E as E'. unfold Sql.find_cart_by_pk in E'. cbn [fst] in E'.
    apply find_some in E' as [_ Hid]. apply Z.eqb_eq in Hid.
    exists (mkStore (snd (Sql.add_to_total (Cart.IdCart c) priceToAdd db)) sq []).
    split; [|split; [|split; [|split]]].
    + unfold run, updateCartTotalPrice, try_catch, bind, throw, query.
      cbn [st_tables st_seqs st_faults tables seqs faults hd tl with_tables with_faults].
      rewrite E. reflexivity.
    + cbn [st_tables]. rewrite total_of_add_to_total, Ht0. cbn.
      now rewrite Hid, Z.eqb_refl.
    + intros c0 Hne. cbn [st_tables].
      rewrite total_of_add_to_total. destruct (total_of c0 db); cbn; [|reflexivity].
      rewrite Hid. destruct (Z.eqb_spec c0 cartId); [contradiction|reflexivity].
    + reflexivity.
    + reflexivity.
Qed.

Lemma updateCartTotalPrice_outcomes_witness :
  run (updateCartTotalPrice 7 100) Runs.four_reserved
  = (inl (Error "Cart not found"), Runs.four_reserved) /\
  exists s',
    run (updateCartTotalPrice 1 (- 200)) Runs.four_reserved = (inr tt, s') /\
    total_of 1 (st_tables s') = Some (1200 + - 200).
Proof.
  split.
  - exact (proj1 (updateCartTotalPrice_outcomes 7 100 Runs.four_reserved eq_refl) eq_refl).
  - destruct (proj2 (updateCartTotalPrice_outcomes 1 (- 200) Runs.four_reserved eq_refl)
                    1200 eq_refl) as (s' & H1 & H2 & _).
    exists s'. now split.
Defined.
(** ** services/recordService.ts *)


Section SetPrice.

Variables (id p : Z).

Let reprice (r : RecordItem.t) : RecordItem.t :=
  if RecordItem.IdRecord r =? id then RecordItem.with_Price p r else r.

Lemma reprice_none (l : list RecordItem.t) :
  filter (fun r => RecordItem.IdRecord r =? id) l = [] -> map reprice l = l.
Proof.
  unfold reprice. induction l as [|a l IH]; cbn; [reflexivity|].
  destruct (RecordItem.IdRecord a =? id); [discriminate|]. intros H. now rewrite IH.
Qed.

Lemma reprice_stock (j : Z) (l : list RecordItem.t) :
  option_map RecordItem.Stock
             (hd_error (filter (fun r => RecordItem.IdRecord r =? j) (map reprice l)))
  = option_map RecordItem.Stock
               (hd_error (filter (fun r => RecordItem.IdRecord r =? j) l)).
Proof.
  unfold reprice. induction l as [|a l IH]; cbn; [reflexivity|].
  destruct (RecordItem.IdRecord a =? id); cbn;
    destruct (RecordItem.IdRecord a =? j); cbn; try reflexivity; exact IH.
Qed.

Lemma reprice_price_other (j : Z) (l : list RecordItem.t) :
  j <> id ->
  option_map RecordItem.Price
             (hd_error (filter (fun r => RecordItem.IdRecord r =? j) (map reprice l)))
  = option_map RecordItem.Price
               (hd_error (filter (fun r => RecordItem.IdRecord r =? j) l)).
Proof.
  intros Hne. unfold reprice. induction l as [|a l IH]; cbn; [reflexivity|].
  destruct (RecordItem.IdRecord a =? id) eqn:E; cbn;
    destruct (RecordItem.IdRecord a =? j) eqn:Ej; cbn; try reflexivity; try exact IH.
  apply Z.eqb_eq in E, Ej. congruence.
Qed.

Lemma reprice_price_same (l : list RecordItem.t) (r : RecordItem.t) (rows : list RecordItem.t) :
  filter (fun r => RecordItem.IdRecord r =? id) l = r :: rows ->
  option_map RecordItem.Price
             (hd_error (filter (fun r => RecordItem.IdRecord r =? id) (map reprice l)))
  = Some p.
Proof.
  unfold reprice. induction l as [|a l IH]; cbn; [discriminate|].
  destruct (RecordItem.IdRecord a =? id) eqn:E; cbn; rewrite E; [reflexivity|exact IH].
Qed.

End SetPrice.

(** A change of a catalogue price, [update(id, { Price })].  It never throws:
    a failure of the database is answered [false], like an id that no record
    has, and nothing has changed then.  When it answers [true], the price of
    the item is the new one.  In every case the stock of every item, the
    price of the other items, and the carts and cart lines -- so the prices
    the lines carry and the totals -- are as they were. *)
Theorem update_Price_changes_one_price (id p : Z) (s : Store) :
  exists updated s',
    run (update_Price id p) s = (inr updated, s') /\
    (updated = true -> price id (st_tables s') = Some p) /\
    (updated = false -> st_tables s' = st_tables s) /\
    (forall j, stock j (st_tables s') = stock j (st_tables s)) /\
    (forall j, j <> id -> price j (st_tables s') = price j (st_tables s)) /\
    Carts (st_tables s') = Carts (st_tables s) /\
    CartDetails (st_tables s') = CartDetails (st_tables s).
Proof.
  destruct s as [db sq fl].
  unfold run, update_Price, try_catch, bind, ret, query.
  cbn [st_tables st_seqs st_faults tables seqs faults].
  destruct (hd None fl) as [k|].
  - exists false. eexists. split; [reflexivity|]. cbn. repeat split; auto. discriminate.
  - cbn [fst snd tables seqs faults with_tables with_faults].
    unfold Sql.set_price. cbn [fst snd].
    destruct (filter (fun r => RecordItem.IdRecord r =? id) (Records db)) as [|r rows] eqn:E.
    + exists false. eexists. split; [reflexivity|]. cbn [st_tables].
      rewrite (reprice_none id p _ E), with_Records_same.
      repeat split; auto. discriminate.
    + exists true. eexists. split; [reflexivity|]. cbn [st_tables].
      split; [intros _|split; [discriminate|split; [|split]]].
      * unfold price, Sql.select_record. cbn [fst Records with_Records].
        exact (reprice_price_same id p _ _ _ E).
      * intros j. unfold stock, Sql.select_record. cbn [fst Records with_Records].
        apply reprice_stock.
      * intros j Hj. unfold price, Sql.select_record. cbn [fst Records with_Records].
        now apply reprice_price_other.
      * split; reflexivity.
Qed.
(** ** services/cartDetailService.ts *)


(** [addCartDetail] and the read of a cart's lines.  When the database
    answers, the line is added with the next id of the sequence, and
    [getCartDetailsByCartId] on that cart then answers the lines the cart had
    followed by the new one -- also when the cart already had a line for the
    item: the service function does not merge. *)
Theorem addCartDetail_then_read (cartId recordId amount price : Z) (db : DB)
        (sq : Sequences) (rest : list (option DbErrorKind)) :
  exists s',
    run (CartDetailService.addCartDetail cartId recordId amount price)
        (mkStore db sq (None :: None :: rest))
    = (inr (CartDetail.mk (seq_IdCartDetail sq) cartId recordId amount price), s') /\
    run (getCartDetailsByCartId cartId) s'
    = (inr (fst (Sql.select_cart_details cartId db)
            ++ [CartDetail.mk (seq_IdCartDetail sq) cartId recordId amount price]),
       mkStore (st_tables s') (st_seqs s') rest) /\
    CartDetails (st_tables s')
    = CartDetails db ++ [CartDetail.mk (seq_IdCartDetail sq) cartId recordId amount price].
Proof.
  eexists. split; [reflexivity|]. split; [|reflexivity].
  unfold run, getCartDetailsByCartId, try_catch, bind, ret, query. cbn.
  rewrite filter_app. cbn. now rewrite Z.eqb_refl.
Qed.

(** Writes that name a line or a cart that is not there.  [updateCartDetail]
    and [removeFromCartDetail] for an id that no line has, and
    [removeAllDetailsFromCart] for a cart without lines, report no error and
    change nothing. *)
Theorem cart_line_writes_ignore_missing_lines (k v : Z) (s : Store) :
  hd None (st_faults s) = None ->
  (~ In k (map CartDetail.IdCartDetail (CartDetails (st_tables s))) ->
   run (CartDetailService.updateCartDetail k v) s
   = (inr tt, mkStore (st_tables s) (st_seqs s) (tl (st_faults s))) /\
   run (CartDetailService.removeFromCartDetail k) s
   = (inr tt, mkStore (st_tables s) (st_seqs s) (tl (st_faults s))))
  /\
  (fst (Sql.select_cart_details k (st_tables s)) = [] ->
   run (removeAllDetailsFromCart k) s
   = (inr tt, mkStore (st_tables s) (st_seqs s) (tl (st_faults s)))).
Proof.
  destruct s as [db sq fl]. cbn [st_tables st_seqs st_faults]. intros Hf.
  split.
  - intros Hk. split.
    + unfold run, CartDetailService.updateCartDetail, query.
      cbn [st_tables st_seqs st_faults tables seqs faults]. rewrite Hf.
      unfold Sql.set_amount. cbn [fst snd tables seqs faults with_tables with_faults].
      now rewrite set_amount_absent, with_CartDetails_same.
    + unfold run, CartDetailService.removeFromCartDetail, query.
      cbn [st_tables st_seqs st_faults tables seqs faults]. rewrite Hf.
      unfold Sql.delete_cart_detail. cbn [fst snd tables seqs faults with_tables with_faults].
      now rewrite delete_absent, with_CartDetails_same.
  - intros Hnone.
    unfold run, removeAllDetailsFromCart, query.
    cbn [st_tables st_seqs st_faults tables seqs faults]. rewrite Hf.
    unfold Sql.delete_cart_details. cbn [fst snd tables seqs faults with_tables with_faults].
    assert (Hsame : filter (fun d => negb (CartDetail.CartId d =? k)) (CartDetails db)
                    = CartDetails db).
    { unfold Sql.select_cart_details in Hnone. cbn [fst] in Hnone.
      induction (CartDetails db) as [|d l IH]; cbn in *; [reflexivity|].
      destruct (CartDetail.CartId d =? k); [discriminate|]. cbn. now rewrite IH. }
    now rewrite Hsame, with_CartDetails_same.
Qed.

Lemma cart_line_writes_ignore_missing_lines_witness :
  run (CartDetailService.updateCartDetail 9 5) Runs.four_reserved
  = (inr tt, Runs.four_reserved) /\
  run (CartDetailService.removeFromCartDetail 9) Runs.four_reserved
  = (inr tt, Runs.four_reserved) /\
  run (removeAllDetailsFromCart 9) Runs.four_reserved = (inr tt, Runs.four_reserved).
Proof.
  pose proof (cart_line_writes_ignore_missing_lines 9 5 Runs.four_reserved eq_refl)
    as [H1 H2].
  destruct H1 as [Hu Hr]; [cbn; intros [H|[]]; discriminate H|].
  split; [exact Hu|]. split; [exact Hr|]. exact (H2 eq_refl).
Defined.

(** [getCartDetail] never answers a line.  Its SELECT resolves to the array
    of rows, of which it takes the first for the list of results: for a line
    that exists it answers [null], and for one that does not it throws. *)
Theorem getCartDetail_never_answers_a_line (cartId recordId : Z) (s : Store) :
  hd None (st_faults s) = None ->
  (forall d rows,
      fst (Sql.select_cart_detail cartId recordId (st_tables s)) = d :: rows ->
      run (CartDetailService.getCartDetail RowArray cartId recordId) s
      = (inr None, mkStore (st_tables s) (st_seqs s) (tl (st_faults s))))
  /\
  (fst (Sql.select_cart_detail cartId recordId (st_tables s)) = [] ->
   run (CartDetailService.getCartDetail RowArray cartId recordId) s
   = (inl TypeError, mkStore (st_tables s) (st_seqs s) (tl (st_faults s)))).
Proof.
  destruct s as [db sq fl]. cbn [st_tables st_seqs st_faults]. intros Hf.
  split; [intros d rows Hrows|intros Hrows];
    unfold run, CartDetailService.getCartDetail, bind, query;
    cbn [st_tables st_seqs st_faults tables seqs faults]; rewrite Hf, Hrows; reflexivity.
Qed.

Lemma getCartDetail_never_answers_a_line_witness :
  run (CartDetailService.getCartDetail RowArray 1 1) Runs.four_reserved
  = (inr None, Runs.four_reserved) /\
  run (CartDetailService.getCartDetail RowArray 1 2) Runs.four_reserved
  = (inl TypeError, Runs.four_reserved).
Proof.
  split.
  - exact (proj1 (getCartDetail_never_answers_a_line 1 1 Runs.four_reserved eq_refl)
                 (CartDetail.mk 1 1 1 4 300) [] eq_refl).
  - exact (proj2 (getCartDetail_never_answers_a_line 1 2 Runs.four_reserved eq_refl)
                 eq_refl).
Defined.
(** ** Orders *)


Lemma createOrderFromCart_answers (now : Z) (email : string) (s s' : Store)
      (r : Exn + Response) :
  run (createOrderFromCart now email) s = (r, s') ->
  exists response,
    r = inr response /\
    existsb (Z.eqb (status response)) [201; 400; 500] = true /\
    (status response = 400 -> st_tables s' = st_tables s /\ st_seqs s' = st_seqs s).
Proof.
  destruct s as [db sq fl]. intros H.
  unfold_orders H. simp_in H.
  repeat (split_case H).
  all: result_of H; eexists; split; [reflexivity|]; split; [reflexivity|].
  all: cbn [status]; intros Hs; try discriminate Hs; split; reflexivity.
Qed.

(** [createOrderFromCart] never throws.  Whatever the database does, it
    answers 201, 400 or 500; and a request it rejects with 400 (no address,
    no active cart, a total that is not positive, no line) has changed no
    table and drawn no sequence value. *)
Theorem createOrderFromCart_settles (now : Z) (email : string) (s : Store) :
  exists response s',
    run (createOrderFromCart now email) s = (inr response, s') /\
    existsb (Z.eqb (status response)) [201; 400; 500] = true /\
    (status response = 400 -> st_tables s' = st_tables s /\ st_seqs s' = st_seqs s).
Proof.
  destruct (run (createOrderFromCart now email) s) as [r s'] eqn:E.
  destruct (createOrderFromCart_answers _ _ _ _ _ E) as (response & -> & H1 & H2).
  now exists response, s'.
Qed.

(** The units of an item that order lines record as sold. *)
Definition sold (recordId : Z) (db : DB) : Z :=
  sumZ (map OrderDetail.Amount
            (filter (fun d => OrderDetail.RecordId d =? recordId) (OrderDetails db))).

(** The tables after a conversion that answered 201. *)
Lemma createOrderFromCart_created (now : Z) (email : string) (s s' : Store) (r : Response) :
  run (createOrderFromCart now email) s = (inr r, s') ->
  status r = 201 ->
  exists cart newLines,
    fst (Sql.find_active_cart (normalizeEmail email) (st_tables s)) = Some cart /\
    r = mkResponse 201 (OrderCreated (seq_IdOrder (st_seqs s))) /\
    Records (st_tables s') = Records (st_tables s) /\
    CartDetails (st_tables s')
    = filter (fun d => negb (CartDetail.CartId d =? Cart.IdCart cart))
             (CartDetails (st_tables s)) /\
    Orders (st_tables s')
    = Orders (st_tables s)
      ++ [Order.mk (seq_IdOrder (st_seqs s)) now "Credit Card" (Cart.TotalPrice cart)
                   email (Cart.IdCart cart)] /\
    OrderDetails (st_tables s') = OrderDetails (st_tables s) ++ newLines /\
    map order_line newLines
    = map (copied (seq_IdOrder (st_seqs s)))
          (fst (Sql.select_cart_details (Cart.IdCart cart) (st_tables s))).
Proof.
  destruct s as [db sq fl]. intros H Hok.
  unfold_orders H. simp_in H.
  repeat (split_case H).
  all: try (result_of H; discriminate).
  all: try (injection H as <- <-; discriminate).
  match goal with
  | Hp : Promise_all _ _ = _ |- _ =>
      apply order_details_created in Hp as (newLines & Ht & Hcopy)
  end.
  cbn [tables with_tables with_faults with_seqs] in Ht.
  injection H as <- <-.
  match goal with
  | Hc : fst (Sql.find_active_cart _ db) = Some ?c |- _ => exists c, newLines
  end.
  cbn [st_tables st_seqs]. rewrite Ht. unfold normalizeEmail.
  repeat (split; [ solve [ assumption | reflexivity ] | ]).
  exact Hcopy.
Qed.

Section Sums.

Variable i : Z.

Definition units_of (line : Z * Z * Z * Z) : Z :=
  let '(_, recordId, amount, _) := line in if recordId =? i then amount else 0.

Lemma sold_units (l : list OrderDetail.t) :
  sumZ (map OrderDetail.Amount (filter (fun d => OrderDetail.RecordId d =? i) l))
  = sumZ (map units_of (map order_line l)).
Proof.
  induction l as [|d l IH]; cbn; [reflexivity|].
  destruct (OrderDetail.RecordId d =? i); cbn; lia.
Qed.

Lemma held_units (orderId : Z) (l : list CartDetail.t) :
  held i l = sumZ (map units_of (map (copied orderId) l)).
Proof.
  unfold held. induction l as [|d l IH]; cbn; [reflexivity|].
  destruct (CartDetail.RecordId d =? i); cbn; lia.
Qed.

Lemma held_split (c : Z) (l : list CartDetail.t) :
  held i l
  = held i (filter (fun d => negb (CartDetail.CartId d =? c)) l)
    + held i (filter (fun d => CartDetail.CartId d =? c) l).
Proof.
  unfold held. induction l as [|d l IH]; cbn; [reflexivity|].
  destruct (CartDetail.CartId d =? c); cbn;
    destruct (CartDetail.RecordId d =? i); cbn; lia.
Qed.

End Sums.

(** A successful conversion turns reservations into sales.  For every item,
    the stock is what it was, and the units held by cart lines plus the units
    recorded by order lines are as many as before: what the lines of the
    converted cart held is now sold. *)
Theorem order_conversion_moves_reservations_to_sales
        (now : Z) (email : string) (s s' : Store) (r : Response) (i : Z) :
  run (createOrderFromCart now email) s = (inr r, s') ->
  status r = 201 ->
  stock i (st_tables s') = stock i (st_tables s) /\
  reserved i (st_tables s') + sold i (st_tables s')
  = reserved i (st_tables s) + sold i (st_tables s).
Proof.
  intros H Hok.
  apply createOrderFromCart_created in H
    as (cart & newLines & _ & _ & HR & HC & _ & HO & Hcopy); [|assumption].
  split; [now apply stock_frame|].
  unfold reserved, sold. rewrite HC, HO.
  rewrite (held_split i (Cart.IdCart cart) (CartDetails (st_tables s))).
  rewrite filter_app, map_app, sumZ_app, !sold_units, Hcopy.
  rewrite <- (held_units i (seq_IdOrder (st_seqs s))).
  unfold Sql.select_cart_details. cbn [fst]. lia.
Qed.

(** The conversion that ends the scenario of the specification: 3 units of
    item 1 were reserved, and 3 are sold afterwards. *)
Lemma order_conversion_moves_reservations_to_sales_witness :
  stock 1 (st_tables (snd (run (createOrderFromCart 0 "alice@shop.test")
                               Runs.after_scenario))) = Some 7 /\
  reserved 1 (st_tables (snd (run (createOrderFromCart 0 "alice@shop.test")
                                  Runs.after_scenario)))
  + sold 1 (st_tables (snd (run (createOrderFromCart 0 "alice@shop.test")
                                Runs.after_scenario)))
  = 3 + 0.
Proof.
  assert (H : run (createOrderFromCart 0 "alice@shop.test") Runs.after_scenario
              = (inr (mkResponse 201 (OrderCreated 1)),
                 snd (run (createOrderFromCart 0 "alice@shop.test") Runs.after_scenario)))
    by (vm_compute; reflexivity).
  exact (order_conversion_moves_reservations_to_sales 0 "alice@shop.test"
           Runs.after_scenario _ _ 1 H eq_refl).
Defined.

Lemma insert_by_date_In o x l : In x (insert_by_date o l) <-> x = o \/ In x l.
Proof.
  induction l as [|a l IH]; cbn; [intuition|].
  destruct (Order.OrderDate (fst a) <=? Order.OrderDate (fst o)); cbn; [intuition|].
  rewrite IH. intuition.
Qed.

Lemma most_recent_first_In x l : In x (most_recent_first l) <-> In x l.
Proof.
  induction l as [|a l IH]; cbn; [reflexivity|].
  rewrite insert_by_date_In, IH. intuition.
Qed.

Lemma copied_order_ids (orderId : Z) (newLines : list OrderDetail.t)
      (lines : list CartDetail.t) :
  map order_line newLines = map (copied orderId) lines ->
  Forall (fun d => (OrderDetail.OrderId d =? orderId) = true) newLines.
Proof.
  revert lines. induction newLines as [|d l IH]; intros [|x lines] H;
    try discriminate; constructor.
  - cbn in H. injection H as Hid _ _ _ _. rewrite Hid. apply Z.eqb_refl.
  - cbn in H. injection H as _ _ _ _ H. now apply (IH lines).
Qed.

(** An order just placed is in the user's list of orders.  After a
    conversion that answered 201, and provided the order lines stored before
    belong to orders created before, [getOrdersByEmail] for the address as it
    was spelled in the request answers a list that holds the new order with
    exactly the lines copied from the cart. *)
Theorem placed_order_is_listed
        (now : Z) (email : string) (s s' : Store) (r : Response) :
  run (createOrderFromCart now email) s = (inr r, s') ->
  status r = 201 ->
  Forall (fun d => OrderDetail.OrderId d < seq_IdOrder (st_seqs s))
         (OrderDetails (st_tables s)) ->
  hd None (st_faults s') = None ->
  exists cart order newLines listed,
    fst (Sql.find_active_cart (normalizeEmail email) (st_tables s)) = Some cart /\
    r = mkResponse 201 (OrderCreated (Order.IdOrder order)) /\
    Order.UserEmail order = email /\ Order.Total order = Cart.TotalPrice cart /\
    map order_line newLines
    = map (copied (Order.IdOrder order))
          (fst (Sql.select_cart_details (Cart.IdCart cart) (st_tables s))) /\
    run (getOrdersByEmail email) s'
    = (inr listed, mkStore (st_tables s') (st_seqs s') (tl (st_faults s'))) /\
    In (order, newLines) listed.
Proof.
  intros H Hok Hfk Hf.
  apply createOrderFromCart_created in H
    as (cart & newLines & Hcart & -> & _ & _ & HO & HD & Hcopy); [|assumption].
  set (order := Order.mk (seq_IdOrder (st_seqs s)) now "Credit Card" (Cart.TotalPrice cart)
                         email (Cart.IdCart cart)) in *.
  exists cart, order, newLines.
  exists (fst (find_orders (fun o => String.eqb (Order.UserEmail o) email) (st_tables s'))).
  repeat (split; [assumption || reflexivity|]).
  split.
  - destruct s' as [db' sq' fl']. cbn [st_tables st_seqs st_faults] in *.
    unfold run, getOrdersByEmail, query.
    cbn [st_tables st_seqs st_faults tables seqs faults]. rewrite Hf. reflexivity.
  - unfold find_orders. cbn [fst]. apply most_recent_first_In.
    apply in_map_iff. exists order. split.
    + f_equal. rewrite HD, filter_app.
      rewrite (filter_none _ (OrderDetails (st_tables s))).
      * cbn [app]. apply filter_all. exact (copied_order_ids _ _ _ Hcopy).
      * eapply Forall_impl; [|exact Hfk]. cbn. intros d Hd. apply Z.eqb_neq. lia.
    + apply filter_In. split.
      * rewrite HO. apply in_or_app. right. now left.
      * cbn. apply String.eqb_refl.
Qed.

(** The conversion that ends the scenario of the specification, and the list
    of Alice's orders afterwards. *)
Lemma placed_order_is_listed_witness :
  exists cart order newLines listed,
    fst (Sql.find_active_cart (normalizeEmail "alice@shop.test")
                              (st_tables Runs.after_scenario)) = Some cart /\
    mkResponse 201 (OrderCreated 1) = mkResponse 201 (OrderCreated (Order.IdOrder order)) /\
    Order.UserEmail order = "alice@shop.test" /\ Order.Total order = Cart.TotalPrice cart /\
    map order_line newLines
    = map (copied (Order.IdOrder order))
          (fst (Sql.select_cart_details (Cart.IdCart cart) (st_tables Runs.after_scenario))) /\
    run (getOrdersByEmail "alice@shop.test")
        (snd (run (createOrderFromCart 0 "alice@shop.test") Runs.after_scenario))
    = (inr listed,
       mkStore (st_tables (snd (run (createOrderFromCart 0 "alice@shop.test")
                                    Runs.after_scenario)))
               (st_seqs (snd (run (createOrderFromCart 0 "alice@shop.test")
                                  Runs.after_scenario)))
               (tl (st_faults (snd (run (createOrderFromCart 0 "alice@shop.test")
                                        Runs.after_scenario))))) /\
    In (order, newLines) listed.
Proof.
  assert (H : run (createOrderFromCart 0 "alice@shop.test") Runs.after_scenario
              = (inr (mkResponse 201 (OrderCreated 1)),
                 snd (run (createOrderFromCart 0 "alice@shop.test") Runs.after_scenario)))
    by (vm_compute; reflexivity).
  refine (placed_order_is_listed 0 "alice@shop.test" Runs.after_scenario _ _ H eq_refl _ _).
  - vm_compute. constructor.
  - vm_compute. reflexivity.
Defined.

(** The service functions of the cart engine are these with no transaction. *)
Lemma createOrder_no_transaction (now total cartId : Z) (email : string) :
  createOrder now email total cartId
  = OrderService.createOrder now (OrderData.mk email None None total cartId) None.
Proof. reflexivity. Qed.

Definition order_line_of (orderId : Z) (d : OrderDetailData.t) : Z * Z * Z * Z :=
  (orderId, OrderDetailData.RecordId d, OrderDetailData.Amount d, OrderDetailData.Price d).

Definition unfinished (st : TxState) : bool :=
  match st with
  | TxFinished => false
  | _ => true
  end.

Lemma createOrderDetail_in_tx (orderId : Z) (d : OrderDetailData.t) (w : World)
      (st : TxState) :
  txs w = [st] -> unfinished st = true ->
  tables (snd (OrderService.createOrderDetail orderId d (@Some Tx O) w)) = tables w /\
  match OrderService.createOrderDetail orderId d (@Some Tx O) w with
  | (inr x, w') =>
      order_line x = order_line_of orderId d /\
      exists g, st = TxOpen g /\
                txs w' = [TxOpen (fun db => snd (Sql.insert_order_detail x (g db)))]
  | (inl _, w') => exists st', txs w' = [st'] /\ unfinished st' = true
  end.
Proof.
  intros Ht Hu. destruct w as [db sq fl tx]. cbn [txs] in Ht. subst tx.
  unfold OrderService.createOrderDetail, bind, throw, nextval_IdOrderDetail, query_opt,
    query_in.
  destruct ((OrderDetailData.Amount d <? 1) || (OrderDetailData.Price d <? 1)).
  { split; [reflexivity|]. now exists st. }
  cbn [seqs with_seqs txs faults tables nth_error].
  destruct st as [g| |]; [| |discriminate].
  - destruct (hd None fl); cbn [fst snd tables with_txs with_faults with_seqs txs set_nth].
    + split; [reflexivity|]. now exists TxAborted.
    + split; [reflexivity|]. split; [reflexivity|]. exists g. now split.
  - split; [reflexivity|]. now exists TxAborted.
Qed.

Lemma order_details_in_tx_any (orderId : Z) (details : list OrderDetailData.t) :
  forall (w : World) (st : TxState),
    txs w = [st] -> unfinished st = true ->
    tables (snd (Promise_all
                   (map (fun detail =>
                           OrderService.createOrderDetail orderId detail (@Some Tx O))
                        details) w)) = tables w /\
    exists st', txs (snd (Promise_all
                            (map (fun detail =>
                                    OrderService.createOrderDetail orderId detail (@Some Tx O))
                                 details) w)) = [st'] /\
                unfinished st' = true.
Proof.
  induction details as [|d details IH]; intros w st Ht Hu.
  - cbn. split; [reflexivity|]. now exists st.
  - cbn [map Promise_all].
    destruct (createOrderDetail_in_tx orderId d w st Ht Hu) as [Htab Hres].
    destruct (OrderService.createOrderDetail orderId d (@Some Tx O) w) as [[e|x] w1].
    + destruct Hres as (st1 & Ht1 & Hu1). cbn [snd] in *.
      destruct (IH w1 st1 Ht1 Hu1) as [Htab' Hst']. rewrite Htab', Htab. now split.
    + destruct Hres as (_ & g & -> & Ht1). cbn [snd] in Htab.
      destruct (IH w1 _ Ht1 eq_refl) as [Htab' Hst'].
      destruct (Promise_all _ w1) as [[e|l] w2]; cbn [snd] in *;
        rewrite Htab', Htab; now split.
Qed.

Lemma order_details_in_tx (orderId : Z) (details : list OrderDetailData.t)
      (w w' : World) (st : TxState) (r : Exn + list OrderDetail.t) :
  txs w = [st] -> unfinished st = true ->
  Promise_all
    (map (fun detail => OrderService.createOrderDetail orderId detail (@Some Tx O))
         details) w = (r, w') ->
  tables w' = tables w /\ exists st', txs w' = [st'] /\ unfinished st' = true.
Proof.
  intros Ht Hu E.
  destruct (order_details_in_tx_any orderId details w st Ht Hu) as [H1 H2].
  rewrite E in H1, H2. exact (conj H1 H2).
Qed.

Lemma order_details_in_tx_ok (orderId : Z) (details : list OrderDetailData.t) :
  forall (w w' : World) (g : DB -> DB) (l : list OrderDetail.t),
    txs w = [TxOpen g] ->
    Promise_all
      (map (fun detail => OrderService.createOrderDetail orderId detail (@Some Tx O))
           details) w = (inr l, w') ->
    map order_line l = map (order_line_of orderId) details /\
    exists g', txs w' = [TxOpen g'] /\
               forall db, g' db = with_OrderDetails (OrderDetails (g db) ++ l) (g db).
Proof.
  induction details as [|d details IH]; intros w w' g l Ht H.
  - cbn in H. injection H as <- <-. split; [reflexivity|]. exists g. split; [assumption|].
    intros db. rewrite app_nil_r. now destruct (g db).
  - cbn [map Promise_all] in H.
    destruct (createOrderDetail_in_tx orderId d w _ Ht eq_refl) as [_ Hres].
    destruct (OrderService.createOrderDetail orderId d (@Some Tx O) w) as [[e|x] w1];
      [discriminate|].
    destruct Hres as (Hx & g0 & [= <-] & Ht1).
    destruct (Promise_all _ w1) as [[e|l1] w2] eqn:E; [discriminate|].
    injection H as <- <-.
    destruct (IH _ _ _ _ Ht1 E) as (Hl & g' & Ht2 & Hg').
    split; [cbn; now rewrite Hx, Hl|].
    exists g'. split; [assumption|]. intros db. rewrite Hg'. cbn.
    now rewrite <- app_assoc.
Qed.

(** [createOrderWithDetails] called without a transaction runs in one of its
    own, and is all or nothing: whatever the database does and whatever the
    lines are, afterwards either no table has changed, or the order and one
    order line per element of [orderDetails] have been added, and nothing
    else.  It never returns the order: once it has committed, it reloads the
    order with the transaction it has just finished, which Sequelize
    refuses. *)
Theorem createOrderWithDetails_all_or_nothing
        (now : Z) (orderData : OrderData.t) (orderDetails : list OrderDetailData.t)
        (s s' : Store) (r : Exn + Order.t * list OrderDetail.t) :
  run (OrderService.createOrderWithDetails now orderData orderDetails None) s = (r, s') ->
  (exists e, r = inl e) /\
  (st_tables s' = st_tables s
   \/
   exists order lines,
     st_tables s'
     = with_OrderDetails (OrderDetails (st_tables s) ++ lines)
         (with_Orders (Orders (st_tables s) ++ [order]) (st_tables s)) /\
     Order.IdOrder order = seq_IdOrder (st_seqs s) /\
     Order.Total order = OrderData.Total orderData /\
     Order.UserEmail order = OrderData.UserEmail orderData /\
     Order.CartId order = OrderData.CartId orderData /\
     map order_line lines = map (order_line_of (Order.IdOrder order)) orderDetails).
Proof.
  destruct s as [db sq fl]. intros H.
  unfold run, OrderService.createOrderWithDetails, OrderService.createOrderWithDetails_try,
    OrderService.createOrder, OrderService.reload, sequelize_transaction, nextval_IdOrder,
    query_opt in H.
  unfold bind, try_catch in H.
  unfold query_in at 1 in H.
  cbn [st_tables st_seqs st_faults tables seqs faults txs with_tables with_seqs
       with_faults with_txs List.length app nth_error set_nth fst snd] in H.
  destruct (hd None fl) as [k|] eqn:F1.
  { cbn in H. injection H as <- <-. split; [now eexists|now left]. }
  cbn [st_tables st_seqs st_faults tables seqs faults txs with_tables with_seqs
       with_faults with_txs List.length app nth_error set_nth fst snd] in H.
  autorewrite with sql_reads in H.
  set (order := Order.mk (seq_IdOrder sq) _ _ _ _ _) in H.
  match type of H with
  | context [Promise_all ?ps ?w1] => destruct (Promise_all ps w1) as [[e|l] w2] eqn:E
  end.
  all: pose proof E as E2;
       eapply order_details_in_tx in E2; [|reflexivity|reflexivity];
       destruct E2 as (Htab & st' & Hst' & Hu).
  all: cbn [tables with_txs with_faults with_seqs] in Htab.
  - (* a line is refused: the transaction is rolled back *)
    unfold rollback, throw in H. rewrite Hst' in H. cbn [nth_error] in H.
    destruct st'; [| |discriminate];
      cbn in H; injection H as <- <-; (split; [now eexists|left; exact Htab]).
  - eapply order_details_in_tx_ok in E; [|reflexivity].
    destruct E as (Hl & g' & Hg & Hg').
    unfold commit, query_in, rollback, throw in H. rewrite Hg in H. cbn [nth_error] in H.
    destruct (hd None (faults w2)) as [k|].
    + cbn in H. injection H as <- <-. split; [now eexists|left; exact Htab].
    + cbn in H. injection H as <- <-. split; [now eexists|].
      right. exists order, l. cbn [st_tables]. rewrite Hg', Htab. cbn.
      repeat split; assumption || reflexivity.
Qed.

(** An order of two units of item 1 for Alice, on a database that answers
    every statement: the order and its line are committed, and the call
    throws. *)
Lemma createOrderWithDetails_all_or_nothing_witness :
  (exists e,
      fst (run (OrderService.createOrderWithDetails 0
                  (OrderData.mk "alice@shop.test" None None 600 1)
                  [OrderDetailData.mk 1 2 300] None) Example.store) = inl e) /\
  Orders (st_tables (snd (run (OrderService.createOrderWithDetails 0
                                 (OrderData.mk "alice@shop.test" None None 600 1)
                                 [OrderDetailData.mk 1 2 300] None) Example.store)))
  = [Order.mk 1 0 "Credit Card" 600 "alice@shop.test" 1] /\
  OrderDetails (st_tables (snd (run (OrderService.createOrderWithDetails 0
                                       (OrderData.mk "alice@shop.test" None None 600 1)
                                       [OrderDetailData.mk 1 2 300] None) Example.store)))
  = [OrderDetail.mk 1 1 1 2 300].
Proof.
  split.
  - exact (proj1 (createOrderWithDetails_all_or_nothing 0
                    (OrderData.mk "alice@shop.test" None None 600 1)
                    [OrderDetailData.mk 1 2 300] Example.store _ _
                    (surjective_pairing _))).
  - split; vm_compute; reflexivity.
Defined.
